(** * The Auth service of sso-go: Login, RegisterNewUser, IsAdmin

    A shallow embedding of package [auth] (the service core).  Every
    operation is a computation in a small state monad whose state holds
    the [Auth] struct the receiver points to, the world outside the
    service (database, clock, entropy) and a chronological trace of the
    log records written and of the calls made into the collaborators. *)

From Stdlib Require Import ZArith List String Ascii Bool Lia DecimalString.
From Stdlib Require Import Strings.Byte.
Import ListNotations.

Open Scope string_scope.
Open Scope Z_scope.

(** ** Package storage: the error variables the service refers to *)

Module storage.

(** Modelled from the spec: package sso/internal/storage is not among the
    sources.  The service names [storage.ErrUserNotFound],
    [storage.ErrAppNotFound] and [storage.ErrInvalidCredentials]; the
    duplicate-registration error is the one the doc comment of
    RegisterNewUser calls ErrUserAlreadyExists (DuplicateUser in the
    spec). *)
Inductive Var : Type :=
| ErrUserNotFound
| ErrUserAlreadyExists
| ErrAppNotFound
| ErrInvalidCredentials.

Definition Var_eqb (x y : Var) : bool :=
  match x, y with
  | ErrUserNotFound, ErrUserNotFound
  | ErrUserAlreadyExists, ErrUserAlreadyExists
  | ErrAppNotFound, ErrAppNotFound
  | ErrInvalidCredentials, ErrInvalidCredentials => true
  | _, _ => false
  end.

End storage.

(** ** Go error values, errors.Is and fmt.Errorf with %w *)

Module errors.

(** An error value is one of the storage package's variables, some other
    error (of bcrypt, of a database driver, of package context, ...)
    known by its text, or the wrapper that [fmt.Errorf("%s: %w", op, err)]
    builds: its text is [op ++ ": " ++ text of err] and it unwraps to
    [err]. *)
Inductive error : Type :=
| Sentinel (v : storage.Var)
| Opaque (text : string)
| Wrap (op : string) (err : error).

Fixpoint eqb (x y : error) : bool :=
  match x, y with
  | Sentinel a, Sentinel b => storage.Var_eqb a b
  | Opaque s, Opaque t => String.eqb s t
  | Wrap o e, Wrap p f => String.eqb o p && eqb e f
  | _, _ => false
  end.

(** [errors.Is(err, target)]: compare, then unwrap and repeat. *)
Fixpoint Is (err target : error) : bool :=
  eqb err target ||
  match err with
  | Wrap _ inner => Is inner target
  | _ => false
  end.

End errors.

Module fmt.
(** [fmt.Errorf("%s: %w", op, err)] *)
Definition Errorf_w (op : string) (err : errors.error) : errors.error := errors.Wrap op err.
End fmt.

(** ** Package models *)

Module models.

(** Modelled from the spec: package sso/internal/domain/models is not
    among the sources.  A user is a numeric ID, an email and a password
    hash (the service reads [PassHash]). *)
Record User : Type := mkUser {
  User_ID : Z;
  User_Email : string;
  User_PassHash : list byte
}.

(** Modelled from the spec: an app is a numeric ID, a name and the secret
    its tokens are signed with. *)
Record App : Type := mkApp {
  App_ID : Z;
  App_Name : string;
  App_Secret : string
}.

End models.

(** ** Package log/slog, as far as the service uses it *)

Module slog.

Inductive Level : Type := LevelInfo | LevelWarn | LevelError.

(** Attributes: [slog.String], [slog.Int64], [slog.Bool].  [ErrText key e]
    is [slog.String(key, e.Error())]: the text of [e], kept as the error
    it is the text of. *)
Inductive Attr : Type :=
| String (key value : string)
| Int64 (key : string) (value : Z)
| Bool (key : string) (value : bool)
| ErrText (key : string) (e : errors.error).

(** A logger is known by the attributes every record of it carries. *)
Definition Logger : Type := list Attr.

(** [l.With(attrs...)] returns a new logger; [l] is left as it was. *)
Definition With (l : Logger) (attrs : list Attr) : Logger := (l ++ attrs)%list.

End slog.

(** ** Package bcrypt *)

Module bcrypt.
Definition DefaultCost : Z := 10.
End bcrypt.

(** ** Package auth *)

Module auth.

(** A Go call that returns [(value, err)] and may change the world [W]
    outside the service (database, clock, entropy). *)
Definition Ext (W A : Type) : Type := W -> (A * option errors.error) * W.

(** The interfaces the service consumes; [Ctx] is the type of the values of
    [context.Context]. *)
Module UserSaver.
Record t (W Ctx : Type) : Type := {
  SaveUser : Ctx -> string -> list byte -> Ext W Z
}.
Arguments SaveUser {W Ctx} _ _ _ _ _.
End UserSaver.

Module UserProvider.
Record t (W Ctx : Type) : Type := {
  User : Ctx -> string -> Ext W models.User;
  IsAdmin : Ctx -> Z -> Ext W bool
}.
Arguments User {W Ctx} _ _ _ _.
Arguments IsAdmin {W Ctx} _ _ _ _.
End UserProvider.

Module AppProvider.
Record t (W Ctx : Type) : Type := {
  App : Ctx -> Z -> Ext W models.App
}.
Arguments App {W Ctx} _ _ _ _.
End AppProvider.

Section Service.

Variable W : Type.
Variable Ctx : Type.

(** Library functions the service calls directly.  The password
    comparison is a function of its arguments; hash generation draws a
    salt and token creation reads the clock, so both go through the
    world.  [jwt_NewToken] belongs to package sso/internal/lib/jwt, which
    is not among the sources: it is a parameter here. *)
Variable bcrypt_CompareHashAndPassword : list byte -> list byte -> option errors.error.
Variable bcrypt_GenerateFromPassword : list byte -> Z -> Ext W (list byte).
Variable jwt_NewToken : models.User -> models.App -> Z -> Ext W string.

Record Auth : Type := {
  log : slog.Logger;
  userSaver : UserSaver.t W Ctx;
  userProvider : UserProvider.t W Ctx;
  appProvider : AppProvider.t W Ctx;
  tokenTTL : Z
}.

(** New returns a new instance of the Auth service *)
Definition New (log : slog.Logger) (userSaver : UserSaver.t W Ctx)
    (userProvider : UserProvider.t W Ctx) (appProvider : AppProvider.t W Ctx)
    (tokenTTL : Z) : Auth :=
  {| userSaver := userSaver;
     userProvider := userProvider;
     appProvider := appProvider;
     tokenTTL := tokenTTL;
     log := log |}.

(** *** Trace *)

Inductive Event : Type :=
| Log (lvl : slog.Level) (msg : string) (attrs : list slog.Attr)
| CallUser (ctx : Ctx) (email : string)
| CallCompareHashAndPassword (hash password : list byte)
| CallApp (ctx : Ctx) (appID : Z)
| CallNewToken (user : models.User) (app : models.App) (ttl : Z)
| CallGenerateFromPassword (password : list byte) (cost : Z)
| CallSaveUser (ctx : Ctx) (email : string) (passHash : list byte)
| CallIsAdmin (ctx : Ctx) (userID : Z).

(** *** State and monad *)

Record State : Type := {
  self : Auth;          (* the struct the receiver [a] points to *)
  world : W;
  trace : list Event
}.

Definition M (A : Type) : Type := State -> A * State.

Definition ret {A} (x : A) : M A := fun s => (x, s).

Definition bind {A B} (m : M A) (k : A -> M B) : M B :=
  fun s => let (x, s') := m s in k x s'.

Definition emit (e : Event) : M unit :=
  fun s => (tt, {| self := self s; world := world s; trace := (trace s ++ [e])%list |}).

(** Reading a field of [*a]. *)
Definition field {A} (f : Auth -> A) : M A := fun s => (f (self s), s).

(** Calling a collaborator: the call is recorded, then run on the world. *)
Definition call {A} (e : Event) (f : Ext W A) : M (A * option errors.error) :=
  fun s =>
    let (r, w') := f (world s) in
    (r, {| self := self s; world := w'; trace := (trace s ++ [e])%list |}).

(** Calling a function that neither reads nor changes the world. *)
Definition callPure {A} (e : Event) (r : A) : M A :=
  fun s => (r, {| self := self s; world := world s; trace := (trace s ++ [e])%list |}).

Definition Logger_Info (l : slog.Logger) (msg : string) (attrs : list slog.Attr) : M unit :=
  emit (Log slog.LevelInfo msg (l ++ attrs)%list).
Definition Logger_Warn (l : slog.Logger) (msg : string) (attrs : list slog.Attr) : M unit :=
  emit (Log slog.LevelWarn msg (l ++ attrs)%list).
Definition Logger_Error (l : slog.Logger) (msg : string) (attrs : list slog.Attr) : M unit :=
  emit (Log slog.LevelError msg (l ++ attrs)%list).

Notation "x <- m ;; k" := (bind m (fun x => k))
  (at level 61, m at next level, right associativity).
Notation "' pat <- m ;; k" := (bind m (fun x => match x with pat => k end))
  (at level 61, pat pattern, m at next level, right associativity).
Notation "m ;;; k" := (bind m (fun _ => k))
  (at level 61, right associativity).

(** [a.log], read where an operation has a local [log] of its own. *)
Definition a_log : M slog.Logger := field log.

(** *** Login *)

(** Login authenticates a user and returns a token for the given app ID. *)
Definition Login (ctx : Ctx) (email password : string) (appID : Z)
    : M (string * option errors.error) :=
  let op := "auth.Login" in
  l <- a_log ;;
  let log := slog.With l [slog.String "op" op; slog.String "username" email] in
  Logger_Info log "attempting to login user" [] ;;;
  up <- field userProvider ;;
  '(user, err) <- call (CallUser ctx email) (UserProvider.User up ctx email) ;;
  match err with
  | Some err =>
      (if errors.Is err (errors.Sentinel storage.ErrUserNotFound)
       then l <- a_log ;;
            Logger_Warn l "user not found" [slog.ErrText "error" err]
       else ret tt) ;;;
      ret ("", Some (fmt.Errorf_w op (errors.Sentinel storage.ErrInvalidCredentials)))
  | None =>
      cmp <- callPure
               (CallCompareHashAndPassword (models.User_PassHash user)
                  (list_byte_of_string password))
               (bcrypt_CompareHashAndPassword (models.User_PassHash user)
                  (list_byte_of_string password)) ;;
      match cmp with
      | Some err =>
          l <- a_log ;;
          Logger_Warn l "invalid credentials" [slog.ErrText "error" err] ;;;
          ret ("", Some (fmt.Errorf_w op (errors.Sentinel storage.ErrInvalidCredentials)))
      | None =>
          ap <- field appProvider ;;
          '(app, err) <- call (CallApp ctx appID) (AppProvider.App ap ctx appID) ;;
          match err with
          | Some err =>
              (if errors.Is err (errors.Sentinel storage.ErrAppNotFound)
               then l <- a_log ;;
                    Logger_Warn l "app not found" [slog.ErrText "error" err]
               else ret tt) ;;;
              ret ("", Some (fmt.Errorf_w op (errors.Sentinel storage.ErrInvalidCredentials)))
          | None =>
              Logger_Info log "user logged in successfully" [] ;;;
              ttl <- field tokenTTL ;;
              '(token, err) <- call (CallNewToken user app ttl) (jwt_NewToken user app ttl) ;;
              match err with
              | Some err =>
                  l <- a_log ;;
                  Logger_Error l "failed to create token" [slog.ErrText "error" err] ;;;
                  ret ("", Some (fmt.Errorf_w op err))
              | None => ret (token, None)
              end
          end
      end
  end.

(** *** RegisterNewUser *)

(** RegisterNewUser creates a new user in the database with the given
    email and password. *)
Definition RegisterNewUser (ctx : Ctx) (email password : string)
    : M (Z * option errors.error) :=
  let op := "auth.RegisterNewUser" in
  l <- a_log ;;
  let log := slog.With l [slog.String "op" op; slog.String "email" email] in
  Logger_Info log "registering new user" [] ;;;
  '(passHash, err) <- call
      (CallGenerateFromPassword (list_byte_of_string password) bcrypt.DefaultCost)
      (bcrypt_GenerateFromPassword (list_byte_of_string password) bcrypt.DefaultCost) ;;
  match err with
  | Some err =>
      Logger_Error log "failed to hash password" [slog.ErrText "error" err] ;;;
      ret (0, Some (fmt.Errorf_w op err))
  | None =>
      us <- field userSaver ;;
      '(id, err) <- call (CallSaveUser ctx email passHash)
                         (UserSaver.SaveUser us ctx email passHash) ;;
      match err with
      | Some err =>
          Logger_Error log "failed to save user" [slog.ErrText "error" err] ;;;
          ret (0, Some (fmt.Errorf_w op err))
      | None =>
          Logger_Info log "user registered" [] ;;;
          ret (id, None)
      end
  end.

(** *** IsAdmin *)

(** IsAdmin checks whether the given user is an admin or not. *)
Definition IsAdmin (ctx : Ctx) (userID : Z) : M (bool * option errors.error) :=
  let op := "auth.IsAdmin" in
  l <- a_log ;;
  let log := slog.With l [slog.String "op" op; slog.Int64 "user_id" userID] in
  Logger_Info log "checking if is admin" [] ;;;
  up <- field userProvider ;;
  '(isAdmin, err) <- call (CallIsAdmin ctx userID) (UserProvider.IsAdmin up ctx userID) ;;
  match err with
  | Some err =>
      Logger_Error log "failed to check if is admin" [slog.ErrText "error" err] ;;;
      ret (false, Some (fmt.Errorf_w op err))
  | None =>
      Logger_Info log "checked if is admin" [slog.Bool "is_admin" isAdmin] ;;;
      ret (isAdmin, None)
  end.

(** *** Running an operation and reading its trace *)

(** The state an operation starts in: the service [a], the world [w], and
    nothing recorded yet. *)
Definition start (a : Auth) (w : W) : State :=
  {| self := a; world := w; trace := [] |}.

(** The collaborators an operation can call. *)
Inductive Capability : Type :=
| CapUser | CapCompare | CapApp | CapSign | CapHash | CapSave | CapIsAdmin.

Definition capability (e : Event) : option Capability :=
  match e with
  | Log _ _ _ => None
  | CallUser _ _ => Some CapUser
  | CallCompareHashAndPassword _ _ => Some CapCompare
  | CallApp _ _ => Some CapApp
  | CallNewToken _ _ _ => Some CapSign
  | CallGenerateFromPassword _ _ => Some CapHash
  | CallSaveUser _ _ _ => Some CapSave
  | CallIsAdmin _ _ => Some CapIsAdmin
  end.

(** The calls of a trace, in the order they were made. *)
Fixpoint calls (tr : list Event) : list Capability :=
  match tr with
  | [] => []
  | e :: tr' =>
      match capability e with
      | Some c => c :: calls tr'
      | None => calls tr'
      end
  end.

(** The context a recorded call was given, if it was given one. *)
Definition call_context (e : Event) : option Ctx :=
  match e with
  | CallUser ctx _ | CallApp ctx _ | CallSaveUser ctx _ _ | CallIsAdmin ctx _ => Some ctx
  | _ => None
  end.

(** The calls into the storage collaborators (the three interfaces). *)
Definition is_storage_call (e : Event) : bool :=
  match e with
  | CallUser _ _ | CallApp _ _ | CallSaveUser _ _ _ | CallIsAdmin _ _ => true
  | _ => false
  end.

(** The calls into the token signer. *)
Definition is_signing_call (e : Event) : bool :=
  match e with
  | CallNewToken _ _ _ => true
  | _ => false
  end.

End Service.

Arguments self {W Ctx} _.
Arguments world {W Ctx} _.
Arguments trace {W Ctx} _.
Arguments start {W Ctx} _ _.
Arguments Log {Ctx} _ _ _.
Arguments CallUser {Ctx} _ _.
Arguments CallCompareHashAndPassword {Ctx} _ _.
Arguments CallApp {Ctx} _ _.
Arguments CallNewToken {Ctx} _ _ _.
Arguments CallGenerateFromPassword {Ctx} _ _.
Arguments CallSaveUser {Ctx} _ _ _.
Arguments CallIsAdmin {Ctx} _ _.
Arguments capability {Ctx} _.
Arguments calls {Ctx} _.
Arguments call_context {Ctx} _.
Arguments is_storage_call {Ctx} _.
Arguments is_signing_call {Ctx} _.
Arguments Login {W Ctx} _ _ _ _ _ _ _.
Arguments RegisterNewUser {W Ctx} _ _ _ _ _.
Arguments IsAdmin {W Ctx} _ _ _.
Arguments New {W Ctx} _ _ _ _ _.
Arguments log {W Ctx} _.
Arguments userSaver {W Ctx} _.
Arguments userProvider {W Ctx} _.
Arguments appProvider {W Ctx} _.
Arguments tokenTTL {W Ctx} _.

End auth.

(** ** Error kinds at the caller boundary *)

(** The three kinds a caller tells apart, read off a returned error with
    [errors.Is] against the storage package's variables: whatever is neither
    invalid credentials nor a duplicate user is internal. *)
Inductive Kind : Type := InvalidCredentials | DuplicateUser | Internal.

Definition kind_of (err : errors.error) : Kind :=
  if errors.Is err (errors.Sentinel storage.ErrInvalidCredentials) then InvalidCredentials
  else if errors.Is err (errors.Sentinel storage.ErrUserAlreadyExists) then DuplicateUser
  else Internal.

(** ** Package jwt: what a token asserts *)

Module jwt.

(** Modelled from the spec: package sso/internal/lib/jwt is not among the
    sources.  A token carries, as distinguishable fields, the user ID, the
    user's email, the app ID and the expiration. *)
Record Claims : Type := mkClaims {
  uid : Z;
  email : string;
  app_id : Z;
  exp : Z
}.

(** Modelled from the spec: the contract of [jwt.NewToken], the token
    signer.  [now] reads the clock of the world and [verify token secret
    claims] checks a token against a secret and the claims it should
    carry.  A token the signer produces for a user, an app and a lifetime
    verifies against that app's secret, binds that user and that app, and
    expires at the time of issuance plus the lifetime. *)
Definition NewToken_contract {W : Type} (now : W -> Z)
    (verify : string -> string -> Claims -> bool)
    (NewToken : models.User -> models.App -> Z -> auth.Ext W string) : Prop :=
  forall user app ttl w token w',
    NewToken user app ttl w = ((token, None), w') ->
    verify token (models.App_Secret app)
      {| uid := models.User_ID user;
         email := models.User_Email user;
         app_id := models.App_ID app;
         exp := now w + ttl |} = true.

End jwt.

(** ** In-memory collaborators

    A backing store, a clock, deadline contexts, a hash and a signer that
    satisfy the contracts of the collaborators: the service run on them is
    the service as a test with in-memory fakes runs it. *)

Module memory.

Record World : Type := {
  users : list models.User;
  apps : list models.App;
  admins : list Z;
  clock : Z;
  locked : bool           (* the database refuses every query *)
}.

(** A context is its deadline, if it has one. *)
Definition Ctx : Type := option Z.

Definition DeadlineExceeded : errors.error := errors.Opaque "context deadline exceeded".
Definition ErrDatabaseLocked : errors.error := errors.Opaque "database is locked".
Definition ErrMismatchedHashAndPassword : errors.error :=
  errors.Opaque "crypto/bcrypt: hashedPassword is not the hash of the given password".

(** [ctx.Err()] *)
Definition Err (ctx : Ctx) (w : World) : option errors.error :=
  match ctx with
  | Some d => if d <=? clock w then Some DeadlineExceeded else None
  | None => None
  end.

Definition tick (n : Z) (w : World) : World :=
  {| users := users w; apps := apps w; admins := admins w;
     clock := clock w + n; locked := locked w |}.

(** Every query first honours the context, then takes its time. *)
Definition query {A} (opname : string) (zero : A) (ctx : Ctx)
    (run : World -> (A * option errors.error) * World) : auth.Ext World A :=
  fun w =>
    match Err ctx w with
    | Some e => ((zero, Some (errors.Wrap opname e)), w)
    | None =>
        if locked w then ((zero, Some (errors.Wrap opname ErrDatabaseLocked)), tick 1 w)
        else run (tick 5 w)
    end.

Definition find_user (email : string) (w : World) : option models.User :=
  find (fun u => String.eqb (models.User_Email u) email) (users w).

Definition find_app (appID : Z) (w : World) : option models.App :=
  find (fun a => models.App_ID a =? appID) (apps w).

Definition zeroUser : models.User := models.mkUser 0 "" [].
Definition zeroApp : models.App := models.mkApp 0 "" "".

Definition SaveUser (ctx : Ctx) (email : string) (passHash : list byte)
    : auth.Ext World Z :=
  query "storage.SaveUser" 0 ctx (fun w =>
    match find_user email w with
    | Some _ =>
        ((0, Some (errors.Wrap "storage.SaveUser"
                     (errors.Sentinel storage.ErrUserAlreadyExists))), w)
    | None =>
        let id := Z.of_nat (List.length (users w)) + 1 in
        ((id, None),
         {| users := (users w ++ [models.mkUser id email passHash])%list;
            apps := apps w; admins := admins w;
            clock := clock w; locked := locked w |})
    end).

Definition User (ctx : Ctx) (email : string) : auth.Ext World models.User :=
  query "storage.User" zeroUser ctx (fun w =>
    match find_user email w with
    | Some u => ((u, None), w)
    | None =>
        ((zeroUser, Some (errors.Wrap "storage.User"
                            (errors.Sentinel storage.ErrUserNotFound))), w)
    end).

Definition IsAdmin (ctx : Ctx) (userID : Z) : auth.Ext World bool :=
  query "storage.IsAdmin" false ctx (fun w =>
    if existsb (fun u => models.User_ID u =? userID) (users w)
    then ((existsb (Z.eqb userID) (admins w), None), w)
    else ((false, Some (errors.Wrap "storage.IsAdmin"
                          (errors.Sentinel storage.ErrUserNotFound))), w)).

Definition App (ctx : Ctx) (appID : Z) : auth.Ext World models.App :=
  query "storage.App" zeroApp ctx (fun w =>
    match find_app appID w with
    | Some a => ((a, None), w)
    | None =>
        ((zeroApp, Some (errors.Wrap "storage.App"
                           (errors.Sentinel storage.ErrAppNotFound))), w)
    end).

Definition saver : auth.UserSaver.t World Ctx :=
  {| auth.UserSaver.SaveUser := SaveUser |}.
Definition provider : auth.UserProvider.t World Ctx :=
  {| auth.UserProvider.User := User; auth.UserProvider.IsAdmin := IsAdmin |}.
Definition appProvider : auth.AppProvider.t World Ctx :=
  {| auth.AppProvider.App := App |}.

(** A stand-in for bcrypt: the hash is a marker followed by the password
    reversed, and never the password itself. *)
Definition hash_of (password : list byte) : list byte :=
  (list_byte_of_string "$2a$10$" ++ rev password)%list.

Definition bytes_eqb (x y : list byte) : bool :=
  if list_eq_dec Byte.byte_eq_dec x y then true else false.

Definition CompareHashAndPassword (hash password : list byte) : option errors.error :=
  if bytes_eqb hash (hash_of password) then None
  else Some ErrMismatchedHashAndPassword.

Definition GenerateFromPassword (password : list byte) (cost : Z)
    : auth.Ext World (list byte) :=
  fun w => ((hash_of password, None), tick 2 w).

(** A stand-in for the signer: the token spells out its claims and the
    secret it was made with. *)
Definition dec (z : Z) : string := DecimalString.NilZero.string_of_int (Z.to_int z).

Definition render (secret : string) (c : jwt.Claims) : string :=
  dec (jwt.uid c) ++ "." ++ jwt.email c ++ "." ++ dec (jwt.app_id c) ++ "."
    ++ dec (jwt.exp c) ++ "." ++ secret.

Definition verify (token secret : string) (c : jwt.Claims) : bool :=
  String.eqb token (render secret c).

Definition NewToken (user : models.User) (app : models.App) (ttl : Z)
    : auth.Ext World string :=
  fun w =>
    ((render (models.App_Secret app)
        {| jwt.uid := models.User_ID user;
           jwt.email := models.User_Email user;
           jwt.app_id := models.App_ID app;
           jwt.exp := clock w + ttl |}, None), w).

(** A signer that always fails. *)
Definition ErrSigning : errors.error := errors.Opaque "key is invalid".
Definition NewToken_failing (user : models.User) (app : models.App) (ttl : Z)
    : auth.Ext World string :=
  fun w => (("", Some ErrSigning), w).

(** The service over these collaborators, with a one-hour lifetime of
    tokens and a logger without attributes. *)
Definition hour : Z := 3600000000000.

Definition service : auth.Auth World Ctx :=
  auth.New [] saver provider appProvider hour.

(** A world with one app and no users, at time 1000. *)
Definition empty : World :=
  {| users := []; apps := [models.mkApp 10 "test" "test-secret"];
     admins := []; clock := 1000; locked := false |}.

(** The world after alice has registered. *)
Definition registered : World :=
  auth.world
    (snd (auth.RegisterNewUser GenerateFromPassword None "alice@example.com" "s3cret"
            (auth.start service empty))).

(** Alice as stored, and the app of that world. *)
Definition alice : models.User :=
  models.mkUser 1 "alice@example.com" (hash_of (list_byte_of_string "s3cret")).
Definition app10 : models.App := models.mkApp 10 "test" "test-secret".

(** The world a Login of alice from [registered] passes through: after
    the user lookup and after the app lookup.  The clock reads 1007, 1012
    and 1017. *)
Definition after_user : World := tick 5 registered.
Definition after_app : World := tick 5 after_user.

(** A context whose deadline falls while the app lookup is under way. *)
Definition expiring : Ctx := Some 1015.

(** The same world with the database refusing queries. *)
Definition registered_locked : World :=
  {| users := users registered; apps := apps registered; admins := admins registered;
     clock := clock registered; locked := true |}.

End memory.

(** ** Reading the log records off a trace *)

(** The records written to the logger, in order: level, message and the
    attributes the record carries. *)
Definition log_records {Ctx : Type} (tr : list (auth.Event Ctx))
    : list (slog.Level * string * list slog.Attr) :=
  flat_map (fun e => match e with
                     | auth.Log lvl msg attrs => [(lvl, msg, attrs)]
                     | _ => []
                     end) tr.

(** No record above the Info level. *)
Definition only_info (rs : list (slog.Level * string * list slog.Attr)) : bool :=
  forallb (fun r => match fst (fst r) with
                    | slog.LevelInfo => true
                    | _ => false
                    end) rs.

(** The calls recorded in a trace, with the arguments they were made with. *)
Definition call_events {Ctx : Type} (tr : list (auth.Event Ctx)) : list (auth.Event Ctx) :=
  filter (fun e => match auth.capability e with
                   | Some _ => true
                   | None => false
                   end) tr.

(** ** Command migrator (cmd/migrator/main.go) *)

Module migrator.

(** What [panic] was called with: a string or an error. *)
Inductive Panic : Type :=
| PanicString (s : string)
| PanicError (e : errors.error).

Section Main.

(** The world outside the command: the migration files and the database. *)
Variable W : Type.
(** [*migrate.Migrate] *)
Variable Migrate : Type.
(** [migrate.New(sourceURL, databaseURL)] and [m.Up()], of the library
    golang-migrate, and its variable [migrate.ErrNoChange]. *)
Variable migrate_New : string -> string -> auth.Ext W Migrate.
Variable Up : Migrate -> W -> option errors.error * W.
Variable ErrNoChange : errors.error.

Inductive Event : Type :=
| CallNew (sourceURL databaseURL : string)
| CallUp (m : Migrate)
| Println (line : string).

Record State : Type := {
  world : W;
  trace : list Event
}.

(** A computation returns a value or panics. *)
Definition M (A : Type) : Type := State -> (A + Panic) * State.

Definition ret {A} (x : A) : M A := fun s => (inl x, s).

Definition bind {A B} (m : M A) (k : A -> M B) : M B :=
  fun s =>
    match m s with
    | (inl x, s') => k x s'
    | (inr p, s') => (inr p, s')
    end.

Definition panic {A} (p : Panic) : M A := fun s => (inr p, s).

Definition println (line : string) : M unit :=
  fun s => (inl tt, {| world := world s; trace := (trace s ++ [Println line])%list |}).

Definition call {A} (e : Event) (f : W -> A * W) : M A :=
  fun s =>
    let (r, w') := f (world s) in
    (inl r, {| world := w'; trace := (trace s ++ [e])%list |}).

Notation "x <- m ;; k" := (bind m (fun x => k))
  (at level 61, m at next level, right associativity).
Notation "' pat <- m ;; k" := (bind m (fun x => match x with pat => k end))
  (at level 61, pat pattern, m at next level, right associativity).
Notation "m ;;; k" := (bind m (fun _ => k))
  (at level 61, right associativity).

(** [main], from the values [flag.Parse] has left in the three flag
    variables (each is the empty string when its flag is not given). *)
Definition main (storagePath migrationsPath migrationsTable : string) : M unit :=
  (if String.eqb storagePath "" then panic (PanicString "storage path is empty")
   else ret tt) ;;;
  (if String.eqb migrationsPath "" then panic (PanicString "migrations path is empty")
   else ret tt) ;;;
  let sourceURL := "file://" ++ migrationsPath in
  let databaseURL :=
    "sqlite3://" ++ storagePath ++ "?x-migrations-table=" ++ migrationsTable in
  '(m, err) <- call (CallNew sourceURL databaseURL) (migrate_New sourceURL databaseURL) ;;
  match err with
  | Some err => panic (PanicError err)
  | None =>
      err <- call (CallUp m) (Up m) ;;
      match err with
      | Some err =>
          if errors.Is err ErrNoChange
          then println "no migrations to apply" ;;; ret tt
          else panic (PanicError err)
      | None => println "migrations applied successfully"
      end
  end.

Definition start (w : W) : State := {| world := w; trace := [] |}.

(** The lines printed, in order. *)
Definition printed (tr : list Event) : list string :=
  flat_map (fun e => match e with Println l => [l] | _ => [] end) tr.

(** The calls into the migration library, in order. *)
Definition library_calls (tr : list Event) : list Event :=
  filter (fun e => match e with Println _ => false | _ => true end) tr.

End Main.

Arguments CallNew {Migrate} _ _.
Arguments CallUp {Migrate} _.
Arguments Println {Migrate} _.
Arguments world {W Migrate} _.
Arguments trace {W Migrate} _.
Arguments start {W Migrate} _.
Arguments main {W Migrate} _ _ _ _ _ _ _.
Arguments printed {Migrate} _.
Arguments library_calls {Migrate} _.

(** A stand-in for the migration library: a count of migrations not yet
    applied, a count of those applied, and whether the migration files can
    be opened. *)
Module disk.

Record World : Type := {
  pending : nat;
  applied : nat;
  source_exists : bool
}.

Definition ErrNoChange : errors.error := errors.Opaque "no change".
Definition ErrNoSource : errors.error := errors.Opaque "failed to open source".

Definition New (sourceURL databaseURL : string) : auth.Ext World unit :=
  fun w => if source_exists w then ((tt, None), w) else ((tt, Some ErrNoSource), w).

Definition Up (m : unit) (w : World) : option errors.error * World :=
  match pending w with
  | O => (Some ErrNoChange, w)
  | S _ => (None, {| pending := 0%nat; applied := (applied w + pending w)%nat;
                     source_exists := source_exists w |})
  end.

Definition main := migrator.main New Up ErrNoChange.

(** Two migrations waiting. *)
Definition fresh : World := {| pending := 2; applied := 0; source_exists := true |}.
(** The migration files are missing. *)
Definition missing : World := {| pending := 2; applied := 0; source_exists := false |}.

End disk.

End migrator.

(** * Properties of the service *)

(** ** Errors and kinds *)

Lemma Is_Wrap_Sentinel (op : string) (e : errors.error) (v : storage.Var) :
  errors.Is (errors.Wrap op e) (errors.Sentinel v) = errors.Is e (errors.Sentinel v).
Proof. reflexivity. Qed.

Lemma Is_Wrap_inner (op : string) (e target : errors.error) :
  errors.Is e target = true -> errors.Is (errors.Wrap op e) target = true.
Proof.
  intros H. simpl. rewrite H. apply orb_true_r.
Qed.

Lemma eqb_refl (e : errors.error) : errors.eqb e e = true.
Proof.
  induction e as [v | t | op e IH]; simpl.
  - destruct v; reflexivity.
  - apply String.eqb_refl.
  - rewrite String.eqb_refl, IH. reflexivity.
Qed.

Lemma Is_refl (e : errors.error) : errors.Is e e = true.
Proof.
  destruct e; simpl; rewrite ?eqb_refl, ?String.eqb_refl; simpl;
    try reflexivity; destruct v; reflexivity.
Qed.

Lemma kind_of_Wrap (op : string) (e : errors.error) :
  kind_of (errors.Wrap op e) = kind_of e.
Proof. reflexivity. Qed.

Lemma kind_of_InvalidCredentials (op : string) :
  kind_of (fmt.Errorf_w op (errors.Sentinel storage.ErrInvalidCredentials))
  = InvalidCredentials.
Proof. reflexivity. Qed.

(** ** What each path of an operation returns and records *)

(** Unfold an operation down to the calls it makes. *)
Ltac run :=
  unfold auth.Login, auth.RegisterNewUser, auth.IsAdmin, auth.bind, auth.ret,
    auth.a_log, auth.field, auth.call, auth.callPure, auth.Logger_Info,
    auth.Logger_Warn, auth.Logger_Error, auth.emit, auth.start, fmt.Errorf_w;
  simpl.

(** Split on the outcome of every call and test an operation meets. *)
Ltac outcomes :=
  run;
  repeat (match goal with
          | |- context [let (_, _) := ?f ?w in _] =>
              destruct (f w) as [[? [?|]] ?] eqn:?
          | |- context [match ?c with Some _ => _ | None => _ end] =>
              destruct c eqn:?
          | |- context [if ?b then _ else _] => destruct b eqn:?
          end; simpl).

Section Paths.

Variable W : Type.
Variable Ctx : Type.
Variable compare : list byte -> list byte -> option errors.error.
Variable generate : list byte -> Z -> auth.Ext W (list byte).
Variable newToken : models.User -> models.App -> Z -> auth.Ext W string.

Local Abbreviation Login := (auth.Login compare newToken).
Local Abbreviation RegisterNewUser := (auth.RegisterNewUser generate).
Local Abbreviation ErrInvalid :=
  (errors.Wrap "auth.Login" (errors.Sentinel storage.ErrInvalidCredentials)).

Variable a : auth.Auth W Ctx.
Variable ctx : Ctx.

(** The user lookup fails: the result, whatever the failure. *)
Lemma Login_user_lookup_fails email password appID w u e w1 :
  auth.UserProvider.User (auth.userProvider a) ctx email w = ((u, Some e), w1) ->
  fst (Login ctx email password appID (auth.start a w)) = ("", Some ErrInvalid)
  /\ auth.world (snd (Login ctx email password appID (auth.start a w))) = w1
  /\ auth.calls (auth.trace (snd (Login ctx email password appID (auth.start a w))))
     = [auth.CapUser].
Proof.
  intros H. run. rewrite H.
  destruct (errors.Is e (errors.Sentinel storage.ErrUserNotFound)); simpl; auto.
Qed.

(** The password does not match the stored hash. *)
Lemma Login_password_mismatch email password appID w user w1 e :
  auth.UserProvider.User (auth.userProvider a) ctx email w = ((user, None), w1) ->
  compare (models.User_PassHash user) (list_byte_of_string password) = Some e ->
  fst (Login ctx email password appID (auth.start a w)) = ("", Some ErrInvalid)
  /\ auth.world (snd (Login ctx email password appID (auth.start a w))) = w1
  /\ auth.calls (auth.trace (snd (Login ctx email password appID (auth.start a w))))
     = [auth.CapUser; auth.CapCompare].
Proof.
  intros H1 H2. run. rewrite H1. simpl. rewrite H2. simpl. auto.
Qed.

(** The app lookup fails: the result, whatever the failure. *)
Lemma Login_app_lookup_fails email password appID w user w1 app e w2 :
  auth.UserProvider.User (auth.userProvider a) ctx email w = ((user, None), w1) ->
  compare (models.User_PassHash user) (list_byte_of_string password) = None ->
  auth.AppProvider.App (auth.appProvider a) ctx appID w1 = ((app, Some e), w2) ->
  fst (Login ctx email password appID (auth.start a w)) = ("", Some ErrInvalid)
  /\ auth.world (snd (Login ctx email password appID (auth.start a w))) = w2
  /\ auth.calls (auth.trace (snd (Login ctx email password appID (auth.start a w))))
     = [auth.CapUser; auth.CapCompare; auth.CapApp].
Proof.
  intros H1 H2 H3. run. rewrite H1. simpl. rewrite H2. simpl. rewrite H3.
  destruct (errors.Is e (errors.Sentinel storage.ErrAppNotFound)); simpl; auto.
Qed.

(** All lookups succeed: the result is the signer's. *)
Lemma Login_signs email password appID w user w1 app w2 token oe w3 :
  auth.UserProvider.User (auth.userProvider a) ctx email w = ((user, None), w1) ->
  compare (models.User_PassHash user) (list_byte_of_string password) = None ->
  auth.AppProvider.App (auth.appProvider a) ctx appID w1 = ((app, None), w2) ->
  newToken user app (auth.tokenTTL a) w2 = ((token, oe), w3) ->
  fst (Login ctx email password appID (auth.start a w))
    = match oe with
      | None => (token, None)
      | Some e => ("", Some (errors.Wrap "auth.Login" e))
      end
  /\ auth.world (snd (Login ctx email password appID (auth.start a w))) = w3
  /\ auth.calls (auth.trace (snd (Login ctx email password appID (auth.start a w))))
     = [auth.CapUser; auth.CapCompare; auth.CapApp; auth.CapSign].
Proof.
  intros H1 H2 H3 H4. run. rewrite H1. simpl. rewrite H2. simpl. rewrite H3.
  simpl. rewrite H4. destruct oe; simpl; auto.
Qed.

Lemma RegisterNewUser_hash_fails email password w h e w1 :
  generate (list_byte_of_string password) bcrypt.DefaultCost w = ((h, Some e), w1) ->
  fst (RegisterNewUser ctx email password (auth.start a w))
    = (0, Some (errors.Wrap "auth.RegisterNewUser" e))
  /\ auth.calls (auth.trace (snd (RegisterNewUser ctx email password (auth.start a w))))
     = [auth.CapHash].
Proof.
  intros H. run. rewrite H. simpl. auto.
Qed.

Lemma RegisterNewUser_saves email password w h w1 id oe w2 :
  generate (list_byte_of_string password) bcrypt.DefaultCost w = ((h, None), w1) ->
  auth.UserSaver.SaveUser (auth.userSaver a) ctx email h w1 = ((id, oe), w2) ->
  fst (RegisterNewUser ctx email password (auth.start a w))
    = match oe with
      | None => (id, None)
      | Some e => (0, Some (errors.Wrap "auth.RegisterNewUser" e))
      end
  /\ auth.world (snd (RegisterNewUser ctx email password (auth.start a w))) = w2
  /\ auth.calls (auth.trace (snd (RegisterNewUser ctx email password (auth.start a w))))
     = [auth.CapHash; auth.CapSave].
Proof.
  intros H1 H2. run. rewrite H1. simpl. rewrite H2. destruct oe; simpl; auto.
Qed.

Lemma IsAdmin_delegates userID w b oe w1 :
  auth.UserProvider.IsAdmin (auth.userProvider a) ctx userID w = ((b, oe), w1) ->
  fst (auth.IsAdmin ctx userID (auth.start a w))
    = match oe with
      | None => (b, None)
      | Some e => (false, Some (errors.Wrap "auth.IsAdmin" e))
      end
  /\ auth.world (snd (auth.IsAdmin ctx userID (auth.start a w))) = w1
  /\ auth.calls (auth.trace (snd (auth.IsAdmin ctx userID (auth.start a w))))
     = [auth.CapIsAdmin].
Proof.
  intros H. run. rewrite H. destruct oe; simpl; auto.
Qed.

End Paths.


(** ** The in-memory collaborators meet their contracts *)

Lemma memory_NewToken_meets_contract :
  jwt.NewToken_contract memory.clock memory.verify memory.NewToken.
Proof.
  intros user app ttl w token w' H. unfold memory.NewToken in H.
  injection H as Htok _. subst token. apply String.eqb_refl.
Qed.

Lemma memory_hash_is_not_the_password (password : list byte) :
  memory.hash_of password <> password.
Proof.
  unfold memory.hash_of. intros H.
  apply (f_equal (@List.length byte)) in H.
  rewrite length_app, length_rev in H. simpl in H. lia.
Qed.

(** ** The claims *)

Section Claims.

Variable W : Type.
Variable Ctx : Type.
Variable compare : list byte -> list byte -> option errors.error.
Variable generate : list byte -> Z -> auth.Ext W (list byte).
Variable newToken : models.User -> models.App -> Z -> auth.Ext W string.

Local Abbreviation Login := (auth.Login compare newToken).
Local Abbreviation RegisterNewUser := (auth.RegisterNewUser generate).
Local Abbreviation ErrInvalid :=
  (errors.Wrap "auth.Login" (errors.Sentinel storage.ErrInvalidCredentials)).

(** C2.  When the user lookup returns a user, the stored hash matches the
    supplied password, the app lookup returns an app and the signer produces
    a token for that user, that app and the configured lifetime, Login
    returns exactly that token and no error; by the signer's contract the
    token verifies against the app's secret and carries the user's and the
    app's identifiers and an expiration equal to the time of issuance plus
    the configured lifetime. *)
Theorem Login_returns_signed_token
    (now : W -> Z) (verify : string -> string -> jwt.Claims -> bool)
    (a : auth.Auth W Ctx) (ctx : Ctx) (email password : string) (appID : Z)
    (w w1 w2 w3 : W) (user : models.User) (app : models.App) (token : string) :
  jwt.NewToken_contract now verify newToken ->
  auth.UserProvider.User (auth.userProvider a) ctx email w = ((user, None), w1) ->
  compare (models.User_PassHash user) (list_byte_of_string password) = None ->
  auth.AppProvider.App (auth.appProvider a) ctx appID w1 = ((app, None), w2) ->
  newToken user app (auth.tokenTTL a) w2 = ((token, None), w3) ->
  fst (Login ctx email password appID (auth.start a w)) = (token, None)
  /\ verify token (models.App_Secret app)
       {| jwt.uid := models.User_ID user;
          jwt.email := models.User_Email user;
          jwt.app_id := models.App_ID app;
          jwt.exp := now w2 + auth.tokenTTL a |} = true.
Proof.
  intros Hsign Huser Hcmp Happ Htok. split.
  - destruct (Login_signs W Ctx compare newToken a ctx email password appID
                w user w1 app w2 token None w3 Huser Hcmp Happ Htok) as [Hres _].
    exact Hres.
  - exact (Hsign user app (auth.tokenTTL a) w2 token w3 Htok).
Qed.

(** C3.  For a registered user, Login with a password that does not match
    the stored hash returns InvalidCredentials and not Internal; for an
    email the lookup does not find, Login returns InvalidCredentials too,
    and the two errors are one and the same value, so a caller cannot tell
    the causes apart. *)
Theorem Login_wrong_password_and_unknown_user_alike
    (a : auth.Auth W Ctx) (ctx : Ctx) (email password : string) (appID : Z) (w : W) :
  (forall user w1 e,
      auth.UserProvider.User (auth.userProvider a) ctx email w = ((user, None), w1) ->
      compare (models.User_PassHash user) (list_byte_of_string password) = Some e ->
      fst (Login ctx email password appID (auth.start a w)) = ("", Some ErrInvalid))
  /\ (forall u w1 e,
      auth.UserProvider.User (auth.userProvider a) ctx email w = ((u, Some e), w1) ->
      errors.Is e (errors.Sentinel storage.ErrUserNotFound) = true ->
      fst (Login ctx email password appID (auth.start a w)) = ("", Some ErrInvalid))
  /\ kind_of ErrInvalid = InvalidCredentials
  /\ kind_of ErrInvalid <> Internal.
Proof.
  repeat split.
  - intros user w1 e Huser Hcmp.
    apply (Login_password_mismatch W Ctx compare newToken a ctx email password appID
             w user w1 e Huser Hcmp).
  - intros u w1 e Huser _.
    apply (Login_user_lookup_fails W Ctx compare newToken a ctx email password appID
             w u e w1 Huser).
  - discriminate.
Qed.

(** C4.  When the save capability reports a duplicate user, RegisterNewUser
    returns user ID 0 and an error that wraps the capability's error: the
    duplicate-user error is still found in it by errors.Is, and its kind is
    the kind of the capability's error. *)
Theorem RegisterNewUser_duplicate_propagates
    (a : auth.Auth W Ctx) (ctx : Ctx) (email password : string)
    (w w1 w2 : W) (h : list byte) (id : Z) (e : errors.error) :
  generate (list_byte_of_string password) bcrypt.DefaultCost w = ((h, None), w1) ->
  auth.UserSaver.SaveUser (auth.userSaver a) ctx email h w1 = ((id, Some e), w2) ->
  errors.Is e (errors.Sentinel storage.ErrUserAlreadyExists) = true ->
  exists err,
    fst (RegisterNewUser ctx email password (auth.start a w)) = (0, Some err)
    /\ err = fmt.Errorf_w "auth.RegisterNewUser" e
    /\ errors.Is err (errors.Sentinel storage.ErrUserAlreadyExists) = true
    /\ kind_of err = kind_of e.
Proof.
  intros Hgen Hsave Hdup.
  exists (errors.Wrap "auth.RegisterNewUser" e).
  destruct (RegisterNewUser_saves W Ctx generate a ctx email password
              w h w1 id (Some e) w2 Hgen Hsave) as [Hres _].
  repeat split.
  - exact Hres.
  - rewrite Is_Wrap_Sentinel. exact Hdup.
Qed.

(** C5.  For a registered user with the correct password, when the app
    lookup fails, with AppNotFound or with any other error, Login returns
    the InvalidCredentials error, the very error it returns for an unknown
    user or a wrong password. *)
Theorem Login_app_failure_is_InvalidCredentials
    (a : auth.Auth W Ctx) (ctx : Ctx) (email password : string) (appID : Z)
    (w w1 w2 : W) (user : models.User) (app : models.App) (e : errors.error) :
  auth.UserProvider.User (auth.userProvider a) ctx email w = ((user, None), w1) ->
  compare (models.User_PassHash user) (list_byte_of_string password) = None ->
  auth.AppProvider.App (auth.appProvider a) ctx appID w1 = ((app, Some e), w2) ->
  fst (Login ctx email password appID (auth.start a w)) = ("", Some ErrInvalid)
  /\ kind_of ErrInvalid = InvalidCredentials.
Proof.
  intros Huser Hcmp Happ. split.
  - apply (Login_app_lookup_fails W Ctx compare newToken a ctx email password appID
             w user w1 app e w2 Huser Hcmp Happ).
  - reflexivity.
Qed.

(** C6.  When the admin-check capability returns a boolean and no error,
    IsAdmin returns that boolean and no error; when it returns an error,
    IsAdmin returns false and an error that wraps the capability's, of the
    same kind as the capability's: Internal for a storage failure. *)
Theorem IsAdmin_reflects_capability
    (a : auth.Auth W Ctx) (ctx : Ctx) (userID : Z) (w w1 : W)
    (b : bool) (oe : option errors.error) :
  auth.UserProvider.IsAdmin (auth.userProvider a) ctx userID w = ((b, oe), w1) ->
  match oe with
  | None => fst (auth.IsAdmin ctx userID (auth.start a w)) = (b, None)
  | Some e =>
      exists err,
        fst (auth.IsAdmin ctx userID (auth.start a w)) = (false, Some err)
        /\ errors.Is err e = true
        /\ kind_of err = kind_of e
        /\ (kind_of e = Internal -> kind_of err = Internal)
  end.
Proof.
  intros H.
  destruct (IsAdmin_delegates W Ctx a ctx userID w b oe w1 H) as [Hres _].
  destruct oe as [e|].
  - exists (errors.Wrap "auth.IsAdmin" e). repeat split.
    + exact Hres.
    + apply Is_Wrap_inner, Is_refl.
    + intros Hk. rewrite kind_of_Wrap. exact Hk.
  - exact Hres.
Qed.

(** Split on the outcome of every call and test left in the goal. *)
Ltac each_outcome :=
  repeat (match goal with
          | |- context [let (_, _) := ?f ?w in _] =>
              destruct (f w) as [[? [?|]] ?] eqn:?
          | |- context [match ?c with Some _ => _ | None => _ end] =>
              destruct c eqn:?
          | |- context [if ?b then _ else _] => destruct b eqn:?
          end; simpl).

(** C7, as the code has it.  Every call that Login, RegisterNewUser and
    IsAdmin make into the storage capabilities (User, App, SaveUser,
    IsAdmin) is given the caller's context, and when such a call returns an
    error, as a capability that honours a cancelled context does, the
    operation returns an error.  The token-signing call in Login is given
    the user, the app and the lifetime, and no context.  The service itself
    does not inspect the context: with another context that the storage
    capabilities it calls treat alike, each operation returns the same
    result, leaves the same world and writes the same log records, and Login
    makes the same signing call. *)
Theorem storage_calls_receive_context
    (a : auth.Auth W Ctx) (ctx : Ctx) (email password : string)
    (appID userID : Z) (w : W) :
  let given := fun e : auth.Event Ctx =>
    auth.is_storage_call e = true -> auth.call_context e = Some ctx in
  Forall given (auth.trace (snd (Login ctx email password appID (auth.start a w))))
  /\ Forall given (auth.trace (snd (RegisterNewUser ctx email password (auth.start a w))))
  /\ Forall given (auth.trace (snd (auth.IsAdmin ctx userID (auth.start a w))))
  /\ (Forall (fun e => auth.is_signing_call e = true -> auth.call_context e = None)
        (auth.trace (snd (Login ctx email password appID (auth.start a w))))
      /\ forall user w1 app w2,
          auth.UserProvider.User (auth.userProvider a) ctx email w = ((user, None), w1) ->
          compare (models.User_PassHash user) (list_byte_of_string password) = None ->
          auth.AppProvider.App (auth.appProvider a) ctx appID w1 = ((app, None), w2) ->
          filter auth.is_signing_call
            (auth.trace (snd (Login ctx email password appID (auth.start a w))))
          = [auth.CallNewToken user app (auth.tokenTTL a)])
  /\ (forall u e w1,
        auth.UserProvider.User (auth.userProvider a) ctx email w = ((u, Some e), w1) ->
        snd (fst (Login ctx email password appID (auth.start a w))) <> None)
  /\ (forall user w1 app e w2,
        auth.UserProvider.User (auth.userProvider a) ctx email w = ((user, None), w1) ->
        compare (models.User_PassHash user) (list_byte_of_string password) = None ->
        auth.AppProvider.App (auth.appProvider a) ctx appID w1 = ((app, Some e), w2) ->
        snd (fst (Login ctx email password appID (auth.start a w))) <> None)
  /\ (forall h w1 id e w2,
        generate (list_byte_of_string password) bcrypt.DefaultCost w = ((h, None), w1) ->
        auth.UserSaver.SaveUser (auth.userSaver a) ctx email h w1 = ((id, Some e), w2) ->
        snd (fst (RegisterNewUser ctx email password (auth.start a w))) <> None)
  /\ (forall b e w1,
        auth.UserProvider.IsAdmin (auth.userProvider a) ctx userID w = ((b, Some e), w1) ->
        snd (fst (auth.IsAdmin ctx userID (auth.start a w))) <> None)
  /\ (forall ctx',
        auth.UserProvider.User (auth.userProvider a) ctx email w
        = auth.UserProvider.User (auth.userProvider a) ctx' email w ->
        (forall user w1,
            auth.UserProvider.User (auth.userProvider a) ctx email w = ((user, None), w1) ->
            auth.AppProvider.App (auth.appProvider a) ctx appID w1
            = auth.AppProvider.App (auth.appProvider a) ctx' appID w1) ->
        fst (Login ctx email password appID (auth.start a w))
        = fst (Login ctx' email password appID (auth.start a w))
        /\ auth.world (snd (Login ctx email password appID (auth.start a w)))
           = auth.world (snd (Login ctx' email password appID (auth.start a w)))
        /\ log_records (auth.trace (snd (Login ctx email password appID (auth.start a w))))
           = log_records (auth.trace (snd (Login ctx' email password appID (auth.start a w))))
        /\ filter auth.is_signing_call
             (auth.trace (snd (Login ctx email password appID (auth.start a w))))
           = filter auth.is_signing_call
               (auth.trace (snd (Login ctx' email password appID (auth.start a w)))))
  /\ (forall ctx',
        (forall h w1,
            generate (list_byte_of_string password) bcrypt.DefaultCost w = ((h, None), w1) ->
            auth.UserSaver.SaveUser (auth.userSaver a) ctx email h w1
            = auth.UserSaver.SaveUser (auth.userSaver a) ctx' email h w1) ->
        fst (RegisterNewUser ctx email password (auth.start a w))
        = fst (RegisterNewUser ctx' email password (auth.start a w))
        /\ auth.world (snd (RegisterNewUser ctx email password (auth.start a w)))
           = auth.world (snd (RegisterNewUser ctx' email password (auth.start a w)))
        /\ log_records (auth.trace (snd (RegisterNewUser ctx email password (auth.start a w))))
           = log_records
               (auth.trace (snd (RegisterNewUser ctx' email password (auth.start a w)))))
  /\ (forall ctx',
        auth.UserProvider.IsAdmin (auth.userProvider a) ctx userID w
        = auth.UserProvider.IsAdmin (auth.userProvider a) ctx' userID w ->
        fst (auth.IsAdmin ctx userID (auth.start a w))
        = fst (auth.IsAdmin ctx' userID (auth.start a w))
        /\ auth.world (snd (auth.IsAdmin ctx userID (auth.start a w)))
           = auth.world (snd (auth.IsAdmin ctx' userID (auth.start a w)))
        /\ log_records (auth.trace (snd (auth.IsAdmin ctx userID (auth.start a w))))
           = log_records (auth.trace (snd (auth.IsAdmin ctx' userID (auth.start a w))))).
Proof.
  intros given. unfold given.
  split; [| split; [| split; [| split; [| split; [| split; [| split; [| split;
    [| split; [| split]]]]]]]]].
  - outcomes; repeat constructor; simpl; intros; try discriminate; reflexivity.
  - outcomes; repeat constructor; simpl; intros; try discriminate; reflexivity.
  - outcomes; repeat constructor; simpl; intros; try discriminate; reflexivity.
  - split.
    + outcomes; repeat constructor; simpl; intros; try discriminate; reflexivity.
    + intros user w1 app w2 HU HC HA. run. rewrite HU. simpl. rewrite HC. simpl.
      rewrite HA. simpl.
      destruct (newToken user app (auth.tokenTTL a) w2) as [[tok [e|]] w3]; reflexivity.
  - intros u e w1 H.
    destruct (Login_user_lookup_fails W Ctx compare newToken a ctx email password
                appID w u e w1 H) as [Hres _].
    rewrite Hres. discriminate.
  - intros user w1 app e w2 H1 H2 H3.
    destruct (Login_app_lookup_fails W Ctx compare newToken a ctx email password
                appID w user w1 app e w2 H1 H2 H3) as [Hres _].
    rewrite Hres. discriminate.
  - intros h w1 id e w2 H1 H2.
    destruct (RegisterNewUser_saves W Ctx generate a ctx email password
                w h w1 id (Some e) w2 H1 H2) as [Hres _].
    rewrite Hres. discriminate.
  - intros b e w1 H.
    destruct (IsAdmin_delegates W Ctx a ctx userID w b (Some e) w1 H) as [Hres _].
    rewrite Hres. discriminate.
  - intros ctx' HU HA. run. rewrite <- HU.
    destruct (auth.UserProvider.User (auth.userProvider a) ctx email w)
      as [[user [e|]] w1] eqn:EU; simpl.
    + each_outcome; auto.
    + destruct (compare (models.User_PassHash user) (list_byte_of_string password));
        simpl; auto.
      rewrite <- (HA user w1 eq_refl). each_outcome; auto.
  - intros ctx' HS. run.
    destruct (generate (list_byte_of_string password) bcrypt.DefaultCost w)
      as [[h [e|]] w1] eqn:EG; simpl; auto.
    rewrite <- (HS h w1 eq_refl). each_outcome; auto.
  - intros ctx' HI. run. rewrite <- HI. each_outcome; auto.
Qed.

(** C8.  The calls Login makes are an initial part of the sequence user
    lookup, password comparison, app lookup, token signing, none of them
    made twice; a Login that returns no error has made all four; a Login
    whose user lookup, password comparison or app lookup fails has made the
    calls up to that one and no later one; and a Login whose user lookup,
    password comparison and app lookup succeed goes on to the signing and
    has made all four calls, whether the signing succeeds or fails. *)
Theorem Login_steps_in_order
    (a : auth.Auth W Ctx) (ctx : Ctx) (email password : string) (appID : Z) (w : W) :
  let r := Login ctx email password appID (auth.start a w) in
  let cs := auth.calls (auth.trace (snd r)) in
  (exists rest, (cs ++ rest)%list
                = [auth.CapUser; auth.CapCompare; auth.CapApp; auth.CapSign])
  /\ NoDup cs
  /\ (snd (fst r) = None ->
      cs = [auth.CapUser; auth.CapCompare; auth.CapApp; auth.CapSign])
  /\ (forall u e w1,
        auth.UserProvider.User (auth.userProvider a) ctx email w = ((u, Some e), w1) ->
        cs = [auth.CapUser])
  /\ (forall user w1 e,
        auth.UserProvider.User (auth.userProvider a) ctx email w = ((user, None), w1) ->
        compare (models.User_PassHash user) (list_byte_of_string password) = Some e ->
        cs = [auth.CapUser; auth.CapCompare])
  /\ (forall user w1 app e w2,
        auth.UserProvider.User (auth.userProvider a) ctx email w = ((user, None), w1) ->
        compare (models.User_PassHash user) (list_byte_of_string password) = None ->
        auth.AppProvider.App (auth.appProvider a) ctx appID w1 = ((app, Some e), w2) ->
        cs = [auth.CapUser; auth.CapCompare; auth.CapApp])
  /\ (forall user w1 app w2,
        auth.UserProvider.User (auth.userProvider a) ctx email w = ((user, None), w1) ->
        compare (models.User_PassHash user) (list_byte_of_string password) = None ->
        auth.AppProvider.App (auth.appProvider a) ctx appID w1 = ((app, None), w2) ->
        cs = [auth.CapUser; auth.CapCompare; auth.CapApp; auth.CapSign]
        /\ call_events (auth.trace (snd r))
           = [auth.CallUser ctx email;
              auth.CallCompareHashAndPassword (models.User_PassHash user)
                (list_byte_of_string password);
              auth.CallApp ctx appID;
              auth.CallNewToken user app (auth.tokenTTL a)]).
Proof.
  intros r cs. unfold cs, r.
  split; [| split; [| split; [| split; [| split; [| split]]]]].
  - outcomes;
      [ exists [auth.CapCompare; auth.CapApp; auth.CapSign]
      | exists [auth.CapCompare; auth.CapApp; auth.CapSign]
      | exists [auth.CapApp; auth.CapSign]
      | exists [auth.CapSign]
      | exists [auth.CapSign]
      | exists []
      | exists [] ]; reflexivity.
  - outcomes; repeat constructor; simpl; intuition discriminate.
  - outcomes; intros; try discriminate; reflexivity.
  - intros u e w1 H.
    apply (Login_user_lookup_fails W Ctx compare newToken a ctx email password
             appID w u e w1 H).
  - intros user w1 e H1 H2.
    apply (Login_password_mismatch W Ctx compare newToken a ctx email password
             appID w user w1 e H1 H2).
  - intros user w1 app e w2 H1 H2 H3.
    apply (Login_app_lookup_fails W Ctx compare newToken a ctx email password
             appID w user w1 app e w2 H1 H2 H3).
  - intros user w1 app w2 H1 H2 H3.
    destruct (newToken user app (auth.tokenTTL a) w2) as [[tok oe] w3] eqn:H4.
    split.
    + apply (Login_signs W Ctx compare newToken a ctx email password
               appID w user w1 app w2 tok oe w3 H1 H2 H3 H4).
    + run. rewrite H1. simpl. rewrite H2. simpl. rewrite H3. simpl. rewrite H4.
      destruct oe; reflexivity.
Qed.

(** C9.  The constructor New stores the logger, the three capability
    handles and the token lifetime it is given; Login, RegisterNewUser and
    IsAdmin, run from any state, leave the service as it was; and the
    lifetime a Login hands to the signer is the one New was given. *)
Theorem operations_leave_service_unchanged
    (st : auth.State W Ctx) (ctx : Ctx) (email password : string) (appID userID : Z) :
  auth.self (snd (Login ctx email password appID st)) = auth.self st
  /\ auth.self (snd (RegisterNewUser ctx email password st)) = auth.self st
  /\ auth.self (snd (auth.IsAdmin ctx userID st)) = auth.self st
  /\ (forall l (us : auth.UserSaver.t W Ctx) (up : auth.UserProvider.t W Ctx)
             (ap : auth.AppProvider.t W Ctx) ttl,
        auth.log (auth.New l us up ap ttl) = l
        /\ auth.userSaver (auth.New l us up ap ttl) = us
        /\ auth.userProvider (auth.New l us up ap ttl) = up
        /\ auth.appProvider (auth.New l us up ap ttl) = ap
        /\ auth.tokenTTL (auth.New l us up ap ttl) = ttl)
  /\ (forall l (us : auth.UserSaver.t W Ctx) (up : auth.UserProvider.t W Ctx)
             (ap : auth.AppProvider.t W Ctx) ttl w,
        Forall (fun e => match e with
                         | auth.CallNewToken _ _ t => t = ttl
                         | _ => True
                         end)
          (auth.trace (snd (Login ctx email password appID
                              (auth.start (auth.New l us up ap ttl) w))))).
Proof.
  split; [| split; [| split; [| split]]].
  - outcomes; reflexivity.
  - outcomes; reflexivity.
  - outcomes; reflexivity.
  - intros. repeat split.
  - intros. outcomes; repeat constructor.
Qed.

(** C10.  An operation that returns an error returns with it the zero
    value of its result: Login the empty string, RegisterNewUser the user
    ID 0, IsAdmin false. *)
Theorem error_comes_with_zero_value
    (a : auth.Auth W Ctx) (ctx : Ctx) (email password : string)
    (appID userID : Z) (w : W) :
  (snd (fst (Login ctx email password appID (auth.start a w))) <> None ->
   fst (fst (Login ctx email password appID (auth.start a w))) = "")
  /\ (snd (fst (RegisterNewUser ctx email password (auth.start a w))) <> None ->
      fst (fst (RegisterNewUser ctx email password (auth.start a w))) = 0)
  /\ (snd (fst (auth.IsAdmin ctx userID (auth.start a w))) <> None ->
      fst (fst (auth.IsAdmin ctx userID (auth.start a w))) = false).
Proof.
  split; [| split].
  - outcomes; intros H; try reflexivity; exfalso; apply H; reflexivity.
  - outcomes; intros H; try reflexivity; exfalso; apply H; reflexivity.
  - outcomes; intros H; try reflexivity; exfalso; apply H; reflexivity.
Qed.

End Claims.

(** ** The claims on the in-memory collaborators *)

(** C1.  The database refuses the user lookup with an error that is not
    UserNotFound and whose kind is Internal; Login all the same returns the
    InvalidCredentials error, the one it returns for an unknown user. *)
Theorem Login_storage_failure_returns_InvalidCredentials :
  exists e,
    snd (fst (memory.User None "alice@example.com" memory.registered_locked)) = Some e
    /\ errors.Is e (errors.Sentinel storage.ErrUserNotFound) = false
    /\ kind_of e = Internal
    /\ fst (auth.Login memory.CompareHashAndPassword memory.NewToken
              None "alice@example.com" "s3cret" 10
              (auth.start memory.service memory.registered_locked))
       = ("", Some (errors.Wrap "auth.Login"
                      (errors.Sentinel storage.ErrInvalidCredentials)))
    /\ kind_of (errors.Wrap "auth.Login"
                  (errors.Sentinel storage.ErrInvalidCredentials))
       = InvalidCredentials.
Proof.
  exists (errors.Wrap "storage.User" memory.ErrDatabaseLocked).
  repeat split.
Qed.

(** C7 fails as stated.  The context is live when Login starts and its
    deadline has passed when the app lookup returns; Login goes on to sign,
    a call that is given no context, and completes with a token and no
    error. *)
Lemma Login_completes_after_cancellation :
  let r := auth.Login memory.CompareHashAndPassword memory.NewToken
             memory.expiring "alice@example.com" "s3cret" 10
             (auth.start memory.service memory.registered) in
  memory.Err memory.expiring memory.registered = None
  /\ memory.Err memory.expiring memory.after_app = Some memory.DeadlineExceeded
  /\ fst r = ("1.alice@example.com.10.3600000001017.test-secret", None)
  /\ ~ Forall (fun e => (auth.is_storage_call e || auth.is_signing_call e) = true ->
                        auth.call_context e = Some memory.expiring)
         (auth.trace (snd r)).
Proof.
  repeat split.
  intros H. rewrite Forall_forall in H.
  specialize (H (auth.CallNewToken memory.alice memory.app10 memory.hour)).
  assert (Hin : In (auth.CallNewToken (Ctx := memory.Ctx) memory.alice memory.app10 memory.hour)
                  (auth.trace (snd (auth.Login memory.CompareHashAndPassword memory.NewToken
                     memory.expiring "alice@example.com" "s3cret" 10
                     (auth.start memory.service memory.registered))))).
  { vm_compute. tauto. }
  specialize (H Hin eq_refl). discriminate H.
Qed.

(** ** Instances of the claims on the in-memory collaborators *)

(** C2 at alice's login with her password for app 10. *)
Lemma Login_returns_signed_token_witness :
  fst (auth.Login memory.CompareHashAndPassword memory.NewToken
         None "alice@example.com" "s3cret" 10
         (auth.start memory.service memory.registered))
  = ("1.alice@example.com.10.3600000001017.test-secret", None)
  /\ memory.verify "1.alice@example.com.10.3600000001017.test-secret"
       (models.App_Secret memory.app10)
       {| jwt.uid := models.User_ID memory.alice;
          jwt.email := models.User_Email memory.alice;
          jwt.app_id := models.App_ID memory.app10;
          jwt.exp := memory.clock memory.after_app + auth.tokenTTL memory.service |}
     = true.
Proof.
  apply (Login_returns_signed_token memory.World memory.Ctx
           memory.CompareHashAndPassword memory.NewToken
           memory.clock memory.verify memory.service None
           "alice@example.com" "s3cret" 10
           memory.registered memory.after_user memory.after_app memory.after_app
           memory.alice memory.app10
           "1.alice@example.com.10.3600000001017.test-secret").
  - exact memory_NewToken_meets_contract.
  - reflexivity.
  - reflexivity.
  - reflexivity.
  - reflexivity.
Defined.

(** C3 at alice's login with a wrong password and at the login of bob, who
    is not registered. *)
Lemma Login_wrong_password_and_unknown_user_alike_witness :
  fst (auth.Login memory.CompareHashAndPassword memory.NewToken
         None "alice@example.com" "wrong" 10
         (auth.start memory.service memory.registered))
  = ("", Some (errors.Wrap "auth.Login" (errors.Sentinel storage.ErrInvalidCredentials)))
  /\ fst (auth.Login memory.CompareHashAndPassword memory.NewToken
            None "bob@example.com" "s3cret" 10
            (auth.start memory.service memory.registered))
     = ("", Some (errors.Wrap "auth.Login" (errors.Sentinel storage.ErrInvalidCredentials))).
Proof.
  split.
  - apply (proj1 (Login_wrong_password_and_unknown_user_alike memory.World memory.Ctx
                    memory.CompareHashAndPassword memory.NewToken memory.service None
                    "alice@example.com" "wrong" 10 memory.registered)
             memory.alice memory.after_user memory.ErrMismatchedHashAndPassword).
    + reflexivity.
    + reflexivity.
  - apply (proj1 (proj2 (Login_wrong_password_and_unknown_user_alike memory.World memory.Ctx
                    memory.CompareHashAndPassword memory.NewToken memory.service None
                    "bob@example.com" "s3cret" 10 memory.registered))
             memory.zeroUser memory.after_user
             (errors.Wrap "storage.User" (errors.Sentinel storage.ErrUserNotFound))).
    + reflexivity.
    + reflexivity.
Defined.

(** C4 at a second registration of alice. *)
Lemma RegisterNewUser_duplicate_propagates_witness :
  exists err,
    fst (auth.RegisterNewUser memory.GenerateFromPassword
           None "alice@example.com" "s3cret"
           (auth.start memory.service memory.registered)) = (0, Some err)
    /\ err = fmt.Errorf_w "auth.RegisterNewUser"
               (errors.Wrap "storage.SaveUser"
                  (errors.Sentinel storage.ErrUserAlreadyExists))
    /\ errors.Is err (errors.Sentinel storage.ErrUserAlreadyExists) = true
    /\ kind_of err
       = kind_of (errors.Wrap "storage.SaveUser"
                    (errors.Sentinel storage.ErrUserAlreadyExists)).
Proof.
  apply (RegisterNewUser_duplicate_propagates memory.World memory.Ctx
           memory.GenerateFromPassword memory.service None
           "alice@example.com" "s3cret"
           memory.registered (memory.tick 2 memory.registered)
           (memory.tick 5 (memory.tick 2 memory.registered))
           (memory.hash_of (list_byte_of_string "s3cret")) 0
           (errors.Wrap "storage.SaveUser"
              (errors.Sentinel storage.ErrUserAlreadyExists))).
  - reflexivity.
  - reflexivity.
  - reflexivity.
Defined.

(** C5 at alice's login for app 11, which does not exist. *)
Lemma Login_app_failure_is_InvalidCredentials_witness :
  fst (auth.Login memory.CompareHashAndPassword memory.NewToken
         None "alice@example.com" "s3cret" 11
         (auth.start memory.service memory.registered))
  = ("", Some (errors.Wrap "auth.Login" (errors.Sentinel storage.ErrInvalidCredentials)))
  /\ kind_of (errors.Wrap "auth.Login" (errors.Sentinel storage.ErrInvalidCredentials))
     = InvalidCredentials.
Proof.
  apply (Login_app_failure_is_InvalidCredentials memory.World memory.Ctx
           memory.CompareHashAndPassword memory.NewToken memory.service None
           "alice@example.com" "s3cret" 11
           memory.registered memory.after_user memory.after_app
           memory.alice memory.zeroApp
           (errors.Wrap "storage.App" (errors.Sentinel storage.ErrAppNotFound))).
  - reflexivity.
  - reflexivity.
  - reflexivity.
Defined.

(** C6 at alice, who is no administrator, and at the locked database. *)
Lemma IsAdmin_reflects_capability_witness :
  fst (auth.IsAdmin None 1 (auth.start memory.service memory.registered)) = (false, None)
  /\ exists err,
       fst (auth.IsAdmin None 1 (auth.start memory.service memory.registered_locked))
       = (false, Some err)
       /\ errors.Is err (errors.Wrap "storage.IsAdmin" memory.ErrDatabaseLocked) = true
       /\ kind_of err = kind_of (errors.Wrap "storage.IsAdmin" memory.ErrDatabaseLocked)
       /\ (kind_of (errors.Wrap "storage.IsAdmin" memory.ErrDatabaseLocked) = Internal ->
           kind_of err = Internal).
Proof.
  split.
  - apply (IsAdmin_reflects_capability memory.World memory.Ctx memory.service None 1
             memory.registered memory.after_user false None).
    reflexivity.
  - apply (IsAdmin_reflects_capability memory.World memory.Ctx memory.service None 1
             memory.registered_locked (memory.tick 1 memory.registered_locked) false
             (Some (errors.Wrap "storage.IsAdmin" memory.ErrDatabaseLocked))).
    reflexivity.
Defined.

(** C7 at alice's login under the expiring context and at the locked
    database: the lookups are given the context, and a failing lookup makes
    Login fail. *)
Lemma storage_calls_receive_context_witness :
  Forall (fun e => auth.is_storage_call e = true ->
                   auth.call_context e = Some memory.expiring)
    (auth.trace (snd (auth.Login memory.CompareHashAndPassword memory.NewToken
                        memory.expiring "alice@example.com" "s3cret" 10
                        (auth.start memory.service memory.registered))))
  /\ snd (fst (auth.Login memory.CompareHashAndPassword memory.NewToken
                 memory.expiring "alice@example.com" "s3cret" 10
                 (auth.start memory.service memory.registered_locked))) <> None
  /\ (fst (auth.Login memory.CompareHashAndPassword memory.NewToken
              memory.expiring "alice@example.com" "s3cret" 10
              (auth.start memory.service memory.registered))
      = fst (auth.Login memory.CompareHashAndPassword memory.NewToken
               None "alice@example.com" "s3cret" 10
               (auth.start memory.service memory.registered))
      /\ auth.world (snd (auth.Login memory.CompareHashAndPassword memory.NewToken
                             memory.expiring "alice@example.com" "s3cret" 10
                             (auth.start memory.service memory.registered)))
         = auth.world (snd (auth.Login memory.CompareHashAndPassword memory.NewToken
                              None "alice@example.com" "s3cret" 10
                              (auth.start memory.service memory.registered)))
      /\ log_records
           (auth.trace (snd (auth.Login memory.CompareHashAndPassword memory.NewToken
                               memory.expiring "alice@example.com" "s3cret" 10
                               (auth.start memory.service memory.registered))))
         = log_records
             (auth.trace (snd (auth.Login memory.CompareHashAndPassword memory.NewToken
                                 None "alice@example.com" "s3cret" 10
                                 (auth.start memory.service memory.registered))))
      /\ filter auth.is_signing_call
           (auth.trace (snd (auth.Login memory.CompareHashAndPassword memory.NewToken
                               memory.expiring "alice@example.com" "s3cret" 10
                               (auth.start memory.service memory.registered))))
         = filter auth.is_signing_call
             (auth.trace (snd (auth.Login memory.CompareHashAndPassword memory.NewToken
                                 None "alice@example.com" "s3cret" 10
                                 (auth.start memory.service memory.registered))))).
Proof.
  split; [| split].
  3: {
    apply (proj1 (proj2 (proj2 (proj2 (proj2 (proj2 (proj2 (proj2 (proj2
             (storage_calls_receive_context memory.World memory.Ctx
                memory.CompareHashAndPassword memory.GenerateFromPassword
                memory.NewToken memory.service memory.expiring
                "alice@example.com" "s3cret" 10 1 memory.registered)))))))))
             None).
    - reflexivity.
    - intros user w1 H. vm_compute in H. injection H as Hu Hw. subst user w1.
      reflexivity.
  }
  - apply (proj1 (storage_calls_receive_context memory.World memory.Ctx
                    memory.CompareHashAndPassword memory.GenerateFromPassword
                    memory.NewToken memory.service memory.expiring
                    "alice@example.com" "s3cret" 10 1 memory.registered)).
  - apply (proj1 (proj2 (proj2 (proj2 (proj2
             (storage_calls_receive_context memory.World memory.Ctx
                memory.CompareHashAndPassword memory.GenerateFromPassword
                memory.NewToken memory.service memory.expiring
                "alice@example.com" "s3cret" 10 1 memory.registered_locked)))))
             memory.zeroUser (errors.Wrap "storage.User" memory.ErrDatabaseLocked)
             (memory.tick 1 memory.registered_locked)).
    reflexivity.
Defined.

(** C8 at alice's login with a wrong password: the user lookup and the
    comparison, and nothing after them; and at her login with her password
    when the signer fails: all four calls, the signing last. *)
Lemma Login_steps_in_order_witness :
  auth.calls (auth.trace (snd (auth.Login memory.CompareHashAndPassword memory.NewToken
                                 None "alice@example.com" "wrong" 10
                                 (auth.start memory.service memory.registered))))
  = [auth.CapUser; auth.CapCompare]
  /\ (auth.calls
        (auth.trace (snd (auth.Login memory.CompareHashAndPassword memory.NewToken_failing
                            None "alice@example.com" "s3cret" 10
                            (auth.start memory.service memory.registered))))
      = [auth.CapUser; auth.CapCompare; auth.CapApp; auth.CapSign]
      /\ call_events
           (auth.trace (snd (auth.Login memory.CompareHashAndPassword memory.NewToken_failing
                               None "alice@example.com" "s3cret" 10
                               (auth.start memory.service memory.registered))))
         = [auth.CallUser None "alice@example.com";
            auth.CallCompareHashAndPassword (models.User_PassHash memory.alice)
              (list_byte_of_string "s3cret");
            auth.CallApp None 10;
            auth.CallNewToken memory.alice memory.app10 (auth.tokenTTL memory.service)]).
Proof.
  split.
  - apply (proj1 (proj2 (proj2 (proj2 (proj2
             (Login_steps_in_order memory.World memory.Ctx
                memory.CompareHashAndPassword memory.NewToken memory.service None
                "alice@example.com" "wrong" 10 memory.registered)))))
             memory.alice memory.after_user memory.ErrMismatchedHashAndPassword).
    + reflexivity.
    + reflexivity.
  - apply (proj2 (proj2 (proj2 (proj2 (proj2 (proj2
             (Login_steps_in_order memory.World memory.Ctx
                memory.CompareHashAndPassword memory.NewToken_failing memory.service None
                "alice@example.com" "s3cret" 10 memory.registered))))))
             memory.alice memory.after_user memory.app10 memory.after_app).
    + reflexivity.
    + reflexivity.
    + reflexivity.
Defined.

(** C10 at a login of bob, a second registration of alice and an admin
    check on the locked database: each fails and returns its zero value. *)
Lemma error_comes_with_zero_value_witness :
  fst (fst (auth.Login memory.CompareHashAndPassword memory.NewToken
              None "bob@example.com" "s3cret" 10
              (auth.start memory.service memory.registered_locked))) = ""
  /\ fst (fst (auth.RegisterNewUser memory.GenerateFromPassword
                 None "bob@example.com" "s3cret"
                 (auth.start memory.service memory.registered_locked))) = 0
  /\ fst (fst (auth.IsAdmin None 1
                 (auth.start memory.service memory.registered_locked))) = false.
Proof.
  destruct (error_comes_with_zero_value memory.World memory.Ctx
              memory.CompareHashAndPassword memory.GenerateFromPassword memory.NewToken
              memory.service None "bob@example.com" "s3cret" 10 1
              memory.registered_locked) as [HL [HR HA]].
  split; [| split].
  - apply HL. discriminate.
  - apply HR. discriminate.
  - apply HA. discriminate.
Defined.

(** * More of the service *)

Section Behaviour.

Variable W : Type.
Variable Ctx : Type.
Variable compare : list byte -> list byte -> option errors.error.
Variable generate : list byte -> Z -> auth.Ext W (list byte).
Variable newToken : models.User -> models.App -> Z -> auth.Ext W string.

Local Abbreviation Login := (auth.Login compare newToken).
Local Abbreviation RegisterNewUser := (auth.RegisterNewUser generate).
Local Abbreviation ErrInvalid :=
  (errors.Wrap "auth.Login" (errors.Sentinel storage.ErrInvalidCredentials)).

(** What an operation returns and does to the world depends on the service
    and the world it starts from, not on what was recorded before. *)
Lemma Login_from_any_state (st : auth.State W Ctx) ctx email password appID :
  fst (Login ctx email password appID st)
  = fst (Login ctx email password appID (auth.start (auth.self st) (auth.world st)))
  /\ auth.world (snd (Login ctx email password appID st))
     = auth.world (snd (Login ctx email password appID
                          (auth.start (auth.self st) (auth.world st)))).
Proof.
  outcomes; auto.
Qed.

Lemma RegisterNewUser_keeps_service (a : auth.Auth W Ctx) ctx email password w :
  auth.self (snd (RegisterNewUser ctx email password (auth.start a w))) = a.
Proof.
  outcomes; reflexivity.
Qed.

(** X1.  Login returns a token and no error exactly when the user lookup,
    the password comparison, the app lookup and the signing all return no
    error, and the token is then the signer's. *)
Theorem Login_succeeds_iff
    (a : auth.Auth W Ctx) (ctx : Ctx) (email password : string) (appID : Z) (w : W)
    (token : string) :
  fst (Login ctx email password appID (auth.start a w)) = (token, None)
  <-> exists user w1 app w2 w3,
        auth.UserProvider.User (auth.userProvider a) ctx email w = ((user, None), w1)
        /\ compare (models.User_PassHash user) (list_byte_of_string password) = None
        /\ auth.AppProvider.App (auth.appProvider a) ctx appID w1 = ((app, None), w2)
        /\ newToken user app (auth.tokenTTL a) w2 = ((token, None), w3).
Proof.
  split.
  - destruct (auth.UserProvider.User (auth.userProvider a) ctx email w)
      as [[user [e|]] w1] eqn:HU.
    { destruct (Login_user_lookup_fails W Ctx compare newToken a ctx email password
                  appID w user e w1 HU) as [Hres _].
      rewrite Hres. discriminate. }
    destruct (compare (models.User_PassHash user) (list_byte_of_string password))
      as [e|] eqn:HC.
    { destruct (Login_password_mismatch W Ctx compare newToken a ctx email password
                  appID w user w1 e HU HC) as [Hres _].
      rewrite Hres. discriminate. }
    destruct (auth.AppProvider.App (auth.appProvider a) ctx appID w1)
      as [[app [e|]] w2] eqn:HA.
    { destruct (Login_app_lookup_fails W Ctx compare newToken a ctx email password
                  appID w user w1 app e w2 HU HC HA) as [Hres _].
      rewrite Hres. discriminate. }
    destruct (newToken user app (auth.tokenTTL a) w2) as [[tok oe] w3] eqn:HT.
    destruct (Login_signs W Ctx compare newToken a ctx email password
                appID w user w1 app w2 tok oe w3 HU HC HA HT) as [Hres _].
    rewrite Hres. destruct oe as [e|]; [discriminate |].
    intros H. injection H as Htok. subst tok.
    exists user, w1, app, w2, w3. auto.
  - intros (user & w1 & app & w2 & w3 & HU & HC & HA & HT).
    apply (Login_signs W Ctx compare newToken a ctx email password
             appID w user w1 app w2 token None w3 HU HC HA HT).
Qed.

(** X2.  An error Login returns is either the InvalidCredentials error or
    an error of the signer wrapped under the name of the operation: no error
    of a lookup or of the password comparison reaches the caller. *)
Theorem Login_error_origin
    (a : auth.Auth W Ctx) (ctx : Ctx) (email password : string) (appID : Z) (w : W)
    (err : errors.error) :
  snd (fst (Login ctx email password appID (auth.start a w))) = Some err ->
  err = ErrInvalid
  \/ exists user app w2 token e w3,
       newToken user app (auth.tokenTTL a) w2 = ((token, Some e), w3)
       /\ err = errors.Wrap "auth.Login" e.
Proof.
  destruct (auth.UserProvider.User (auth.userProvider a) ctx email w)
    as [[user [e|]] w1] eqn:HU.
  { destruct (Login_user_lookup_fails W Ctx compare newToken a ctx email password
                appID w user e w1 HU) as [Hres _].
    rewrite Hres. simpl. intros H. injection H as H. left. auto. }
  destruct (compare (models.User_PassHash user) (list_byte_of_string password))
    as [e|] eqn:HC.
  { destruct (Login_password_mismatch W Ctx compare newToken a ctx email password
                appID w user w1 e HU HC) as [Hres _].
    rewrite Hres. simpl. intros H. injection H as H. left. auto. }
  destruct (auth.AppProvider.App (auth.appProvider a) ctx appID w1)
    as [[app [e|]] w2] eqn:HA.
  { destruct (Login_app_lookup_fails W Ctx compare newToken a ctx email password
                appID w user w1 app e w2 HU HC HA) as [Hres _].
    rewrite Hres. simpl. intros H. injection H as H. left. auto. }
  destruct (newToken user app (auth.tokenTTL a) w2) as [[tok oe] w3] eqn:HT.
  destruct (Login_signs W Ctx compare newToken a ctx email password
              appID w user w1 app w2 tok oe w3 HU HC HA HT) as [Hres _].
  rewrite Hres. destruct oe as [e|]; simpl; [| discriminate].
  intros H. injection H as H. right.
  exists user, app, w2, tok, e, w3. auto.
Qed.

(** X3.  When the lookups and the comparison succeed and the signer fails,
    Login returns the empty string and the signer's error wrapped, so that
    errors.Is still finds it and its kind is the signer's error's, and an
    Error record "failed to create token" carrying that error is written to
    the service's logger. *)
Theorem Login_signing_failure_reported
    (a : auth.Auth W Ctx) (ctx : Ctx) (email password : string) (appID : Z)
    (w w1 w2 w3 : W) (user : models.User) (app : models.App)
    (token : string) (e : errors.error) :
  auth.UserProvider.User (auth.userProvider a) ctx email w = ((user, None), w1) ->
  compare (models.User_PassHash user) (list_byte_of_string password) = None ->
  auth.AppProvider.App (auth.appProvider a) ctx appID w1 = ((app, None), w2) ->
  newToken user app (auth.tokenTTL a) w2 = ((token, Some e), w3) ->
  fst (Login ctx email password appID (auth.start a w))
    = ("", Some (errors.Wrap "auth.Login" e))
  /\ errors.Is (errors.Wrap "auth.Login" e) e = true
  /\ kind_of (errors.Wrap "auth.Login" e) = kind_of e
  /\ In (slog.LevelError, "failed to create token",
         (auth.log a ++ [slog.ErrText "error" e])%list)
       (log_records (auth.trace (snd (Login ctx email password appID (auth.start a w))))).
Proof.
  intros HU HC HA HT. repeat split.
  - apply (Login_signs W Ctx compare newToken a ctx email password
             appID w user w1 app w2 token (Some e) w3 HU HC HA HT).
  - apply Is_Wrap_inner, Is_refl.
  - run. rewrite HU. simpl. rewrite HC. simpl. rewrite HA. simpl. rewrite HT.
    simpl. auto.
Qed.

(** X4.  When the user lookup fails, a record above the Info level is
    written exactly when the failure is UserNotFound; when the app lookup
    fails, exactly when the failure is AppNotFound.  Any other failure of a
    lookup leaves no warning and no error record. *)
Theorem Login_lookup_failure_logging
    (a : auth.Auth W Ctx) (ctx : Ctx) (email password : string) (appID : Z) (w : W) :
  (forall u e w1,
      auth.UserProvider.User (auth.userProvider a) ctx email w = ((u, Some e), w1) ->
      only_info (log_records
                   (auth.trace (snd (Login ctx email password appID (auth.start a w)))))
      = negb (errors.Is e (errors.Sentinel storage.ErrUserNotFound)))
  /\ (forall user w1 app e w2,
      auth.UserProvider.User (auth.userProvider a) ctx email w = ((user, None), w1) ->
      compare (models.User_PassHash user) (list_byte_of_string password) = None ->
      auth.AppProvider.App (auth.appProvider a) ctx appID w1 = ((app, Some e), w2) ->
      only_info (log_records
                   (auth.trace (snd (Login ctx email password appID (auth.start a w)))))
      = negb (errors.Is e (errors.Sentinel storage.ErrAppNotFound))).
Proof.
  split.
  - intros u e w1 HU. run. rewrite HU.
    destruct (errors.Is e (errors.Sentinel storage.ErrUserNotFound)); reflexivity.
  - intros user w1 app e w2 HU HC HA. run. rewrite HU. simpl. rewrite HC. simpl.
    rewrite HA.
    destruct (errors.Is e (errors.Sentinel storage.ErrAppNotFound)); reflexivity.
Qed.

(** X5.  The password reaches the outside of the service through the
    password comparison only: two passwords on which the comparison with the
    stored hash of the user found agrees give the same result, the same
    world and the same log records. *)
Theorem Login_password_only_compared
    (a : auth.Auth W Ctx) (ctx : Ctx) (email p1 p2 : string) (appID : Z) (w : W) :
  (forall user w1,
      auth.UserProvider.User (auth.userProvider a) ctx email w = ((user, None), w1) ->
      compare (models.User_PassHash user) (list_byte_of_string p1)
      = compare (models.User_PassHash user) (list_byte_of_string p2)) ->
  fst (Login ctx email p1 appID (auth.start a w))
  = fst (Login ctx email p2 appID (auth.start a w))
  /\ auth.world (snd (Login ctx email p1 appID (auth.start a w)))
     = auth.world (snd (Login ctx email p2 appID (auth.start a w)))
  /\ log_records (auth.trace (snd (Login ctx email p1 appID (auth.start a w))))
     = log_records (auth.trace (snd (Login ctx email p2 appID (auth.start a w)))).
Proof.
  intros H. run.
  destruct (auth.UserProvider.User (auth.userProvider a) ctx email w)
    as [[user [e|]] w1] eqn:HU; simpl.
  - destruct (errors.Is e (errors.Sentinel storage.ErrUserNotFound)); simpl; auto.
  - rewrite (H user w1 eq_refl).
    destruct (compare (models.User_PassHash user) (list_byte_of_string p2)); simpl; auto.
    destruct (auth.AppProvider.App (auth.appProvider a) ctx appID w1)
      as [[app [e|]] w2]; simpl.
    + destruct (errors.Is e (errors.Sentinel storage.ErrAppNotFound)); simpl; auto.
    + destruct (newToken user app (auth.tokenTTL a) w2) as [[tok [e|]] w3]; simpl; auto.
Qed.

(** X6.  RegisterNewUser first hashes the bytes of the password at the
    default cost; when that fails the saver is not called; when it succeeds
    the saver is called once, with the caller's context, the email and the
    hash just generated. *)
Theorem RegisterNewUser_calls
    (a : auth.Auth W Ctx) (ctx : Ctx) (email password : string) (w : W) :
  call_events (auth.trace (snd (RegisterNewUser ctx email password (auth.start a w))))
  = auth.CallGenerateFromPassword (list_byte_of_string password) bcrypt.DefaultCost
    :: match generate (list_byte_of_string password) bcrypt.DefaultCost w with
       | ((h, None), _) => [auth.CallSaveUser ctx email h]
       | ((_, Some _), _) => []
       end.
Proof.
  outcomes; reflexivity.
Qed.

(** X7.  RegisterNewUser returns a user ID and no error exactly when the
    hashing and the saver both return no error, and the ID is then the one
    the saver returned. *)
Theorem RegisterNewUser_succeeds_iff
    (a : auth.Auth W Ctx) (ctx : Ctx) (email password : string) (w : W) (id : Z) :
  fst (RegisterNewUser ctx email password (auth.start a w)) = (id, None)
  <-> exists h w1 w2,
        generate (list_byte_of_string password) bcrypt.DefaultCost w = ((h, None), w1)
        /\ auth.UserSaver.SaveUser (auth.userSaver a) ctx email h w1 = ((id, None), w2).
Proof.
  split.
  - destruct (generate (list_byte_of_string password) bcrypt.DefaultCost w)
      as [[h [e|]] w1] eqn:HG.
    { destruct (RegisterNewUser_hash_fails W Ctx generate a ctx email password
                  w h e w1 HG) as [Hres _].
      rewrite Hres. discriminate. }
    destruct (auth.UserSaver.SaveUser (auth.userSaver a) ctx email h w1)
      as [[id' oe] w2] eqn:HS.
    destruct (RegisterNewUser_saves W Ctx generate a ctx email password
                w h w1 id' oe w2 HG HS) as [Hres _].
    rewrite Hres. destruct oe as [e|]; [discriminate |].
    intros H. injection H as Hid. subst id'.
    exists h, w1, w2. auto.
  - intros (h & w1 & w2 & HG & HS).
    apply (RegisterNewUser_saves W Ctx generate a ctx email password
             w h w1 id None w2 HG HS).
Qed.

(** X8.  A registration followed by a login with the same email and
    password succeeds, provided the store returns for the email a user with
    the hash it was given to save, the comparison accepts that hash for the
    password, the app is found and the signer signs. *)
Theorem RegisterNewUser_then_Login
    (a : auth.Auth W Ctx) (ctx ctx' : Ctx) (email password : string) (appID : Z)
    (w w1 w2 w3 w4 w5 : W) (h : list byte) (id : Z)
    (user : models.User) (app : models.App) (token : string) :
  generate (list_byte_of_string password) bcrypt.DefaultCost w = ((h, None), w1) ->
  auth.UserSaver.SaveUser (auth.userSaver a) ctx email h w1 = ((id, None), w2) ->
  auth.UserProvider.User (auth.userProvider a) ctx' email w2 = ((user, None), w3) ->
  models.User_PassHash user = h ->
  compare h (list_byte_of_string password) = None ->
  auth.AppProvider.App (auth.appProvider a) ctx' appID w3 = ((app, None), w4) ->
  newToken user app (auth.tokenTTL a) w4 = ((token, None), w5) ->
  let registration := RegisterNewUser ctx email password (auth.start a w) in
  fst registration = (id, None)
  /\ fst (Login ctx' email password appID (snd registration)) = (token, None).
Proof.
  intros HG HS HU Hh HC HA HT registration. unfold registration.
  destruct (RegisterNewUser_saves W Ctx generate a ctx email password
              w h w1 id None w2 HG HS) as [Hres [Hw _]].
  split; [exact Hres |].
  destruct (Login_from_any_state
              (snd (RegisterNewUser ctx email password (auth.start a w)))
              ctx' email password appID) as [Hfst _].
  rewrite Hfst, Hw, RegisterNewUser_keeps_service.
  subst h.
  apply (Login_signs W Ctx compare newToken a ctx' email password
           appID w2 user w3 app w4 token None w5 HU HC HA HT).
Qed.

(** X9.  IsAdmin makes one call and no other: the admin check, with the
    caller's context and user ID.  It looks up no user and compares no
    password. *)
Theorem IsAdmin_calls
    (a : auth.Auth W Ctx) (ctx : Ctx) (userID : Z) (w : W) :
  call_events (auth.trace (snd (auth.IsAdmin ctx userID (auth.start a w))))
  = [auth.CallIsAdmin ctx userID].
Proof.
  outcomes; reflexivity.
Qed.

End Behaviour.

(** * The migrator command *)

(** Unfold [main] down to the calls it makes. *)
Ltac run_main :=
  unfold migrator.main, migrator.bind, migrator.ret, migrator.panic,
    migrator.call, migrator.println, migrator.start; simpl.

Section Migrator.

Variable W : Type.
Variable Migrate : Type.
Variable migrate_New : string -> string -> auth.Ext W Migrate.
Variable Up : Migrate -> W -> option errors.error * W.
Variable ErrNoChange : errors.error.

Local Abbreviation main := (migrator.main migrate_New Up ErrNoChange).
Local Abbreviation sourceURL := (fun migrationsPath : string => "file://" ++ migrationsPath).
Local Abbreviation databaseURL :=
  (fun storagePath migrationsTable : string =>
     "sqlite3://" ++ storagePath ++ "?x-migrations-table=" ++ migrationsTable).

Lemma eqb_empty_false (s : string) : s <> "" -> String.eqb s "" = false.
Proof. intros H. apply String.eqb_neq. exact H. Qed.

(** With both paths given, [main] is what follows the two checks. *)
Lemma main_past_checks sp mp tbl w m oe w1 :
  sp <> "" -> mp <> "" ->
  migrate_New (sourceURL mp) (databaseURL sp tbl) w = ((m, oe), w1) ->
  main sp mp tbl (migrator.start w)
  = match oe with
    | Some e => (inr (migrator.PanicError e),
                 {| migrator.world := w1;
                    migrator.trace := [migrator.CallNew (sourceURL mp) (databaseURL sp tbl)] |})
    | None =>
        match Up m w1 with
        | (None, w2) =>
            (inl tt,
             {| migrator.world := w2;
                migrator.trace := [migrator.CallNew (sourceURL mp) (databaseURL sp tbl);
                                   migrator.CallUp m;
                                   migrator.Println "migrations applied successfully"] |})
        | (Some e, w2) =>
            if errors.Is e ErrNoChange
            then (inl tt,
                  {| migrator.world := w2;
                     migrator.trace := [migrator.CallNew (sourceURL mp) (databaseURL sp tbl);
                                        migrator.CallUp m;
                                        migrator.Println "no migrations to apply"] |})
            else (inr (migrator.PanicError e),
                  {| migrator.world := w2;
                     migrator.trace := [migrator.CallNew (sourceURL mp) (databaseURL sp tbl);
                                        migrator.CallUp m] |})
        end
    end.
Proof.
  intros Hsp Hmp HN. run_main.
  rewrite (eqb_empty_false sp Hsp), (eqb_empty_false mp Hmp). simpl.
  simpl in HN. rewrite HN. destruct oe as [e|]; simpl; [reflexivity |].
  destruct (Up m w1) as [[e|] w2]; simpl; [| reflexivity].
  destruct (errors.Is e ErrNoChange); reflexivity.
Qed.

(** X10.  With the storage path or the migrations path empty, [main]
    panics before it calls the migration library or prints anything: with
    "storage path is empty" when the storage path is empty, whatever the
    migrations path, and with "migrations path is empty" otherwise. *)
Theorem main_rejects_empty_paths
    (storagePath migrationsPath migrationsTable : string)
    (st : migrator.State W Migrate) :
  storagePath = "" \/ migrationsPath = "" ->
  main storagePath migrationsPath migrationsTable st
  = (inr (migrator.PanicString
            (if String.eqb storagePath "" then "storage path is empty"
             else "migrations path is empty")), st).
Proof.
  intros H. run_main.
  destruct (String.eqb_spec storagePath "") as [Hs|Hs]; simpl; [reflexivity |].
  destruct H as [H|H]; [contradiction |]. subst migrationsPath. reflexivity.
Qed.

(** X11.  With both paths given, [main] opens the migrations once, with the
    source URL "file://" followed by the migrations path and the database
    URL "sqlite3://", the storage path, "?x-migrations-table=" and the table
    name as given, empty or not; it runs Up once, on the handle it got, when
    the opening succeeded, and not at all when it failed. *)
Theorem main_library_calls
    (storagePath migrationsPath migrationsTable : string) (w : W) :
  storagePath <> "" -> migrationsPath <> "" ->
  migrator.library_calls
    (migrator.trace (snd (main storagePath migrationsPath migrationsTable
                            (migrator.start w))))
  = migrator.CallNew ("file://" ++ migrationsPath)
      ("sqlite3://" ++ storagePath ++ "?x-migrations-table=" ++ migrationsTable)
    :: match migrate_New ("file://" ++ migrationsPath)
               ("sqlite3://" ++ storagePath ++ "?x-migrations-table=" ++ migrationsTable)
               w with
       | ((m, None), _) => [migrator.CallUp m]
       | ((_, Some _), _) => []
       end.
Proof.
  intros Hsp Hmp.
  destruct (migrate_New (sourceURL migrationsPath)
              (databaseURL storagePath migrationsTable) w) as [[m oe] w1] eqn:HN.
  rewrite (main_past_checks storagePath migrationsPath migrationsTable w m oe w1 Hsp Hmp HN).
  destruct oe as [e|]; [reflexivity |].
  destruct (Up m w1) as [[e|] w2]; [| reflexivity].
  destruct (errors.Is e ErrNoChange); reflexivity.
Qed.

(** X12.  [main] returns without a panic exactly when both paths are given,
    the opening succeeds, and Up returns no error or an error in which
    errors.Is finds ErrNoChange. *)
Theorem main_returns_iff
    (storagePath migrationsPath migrationsTable : string) (w : W) :
  fst (main storagePath migrationsPath migrationsTable (migrator.start w)) = inl tt
  <-> storagePath <> "" /\ migrationsPath <> ""
      /\ exists m w1 oe w2,
           migrate_New ("file://" ++ migrationsPath)
             ("sqlite3://" ++ storagePath ++ "?x-migrations-table=" ++ migrationsTable) w
           = ((m, None), w1)
           /\ Up m w1 = (oe, w2)
           /\ match oe with
              | None => True
              | Some e => errors.Is e ErrNoChange = true
              end.
Proof.
  split.
  - intros H.
    destruct (String.eqb_spec storagePath "") as [Hs|Hs].
    { subst storagePath. discriminate H. }
    destruct (String.eqb_spec migrationsPath "") as [Hm|Hm].
    { subst migrationsPath. revert H. run_main.
      rewrite (eqb_empty_false storagePath Hs). discriminate. }
    split; [exact Hs | split; [exact Hm |]].
    destruct (migrate_New (sourceURL migrationsPath)
                (databaseURL storagePath migrationsTable) w) as [[m oe] w1] eqn:HN.
    rewrite (main_past_checks storagePath migrationsPath migrationsTable w m oe w1 Hs Hm HN)
      in H.
    destruct oe as [e|]; [discriminate H |].
    destruct (Up m w1) as [oe w2] eqn:HU.
    exists m, w1, oe, w2. split; [reflexivity | split; [exact HU |]].
    destruct oe as [e|]; [| exact I].
    destruct (errors.Is e ErrNoChange); [reflexivity | discriminate H].
  - intros (Hs & Hm & m & w1 & oe & w2 & HN & HU & Hoe).
    rewrite (main_past_checks storagePath migrationsPath migrationsTable w m None w1 Hs Hm HN).
    rewrite HU. destruct oe as [e|]; [| reflexivity].
    rewrite Hoe. reflexivity.
Qed.

(** X13.  With both paths given and the migrations opened, the outcome is
    decided by Up and the world is left as Up left it: no error, and [main]
    prints "migrations applied successfully" and returns; an error in which
    errors.Is finds ErrNoChange, and it prints "no migrations to apply" and
    returns; any other error, and it panics with that error and prints
    nothing. *)
Theorem main_outcome_of_Up
    (storagePath migrationsPath migrationsTable : string) (w w1 w2 : W)
    (m : Migrate) (oe : option errors.error) :
  storagePath <> "" -> migrationsPath <> "" ->
  migrate_New ("file://" ++ migrationsPath)
    ("sqlite3://" ++ storagePath ++ "?x-migrations-table=" ++ migrationsTable) w
  = ((m, None), w1) ->
  Up m w1 = (oe, w2) ->
  let r := main storagePath migrationsPath migrationsTable (migrator.start w) in
  migrator.world (snd r) = w2
  /\ match oe with
     | None =>
         fst r = inl tt
         /\ migrator.printed (migrator.trace (snd r)) = ["migrations applied successfully"]
     | Some e =>
         if errors.Is e ErrNoChange
         then fst r = inl tt
              /\ migrator.printed (migrator.trace (snd r)) = ["no migrations to apply"]
         else fst r = inr (migrator.PanicError e)
              /\ migrator.printed (migrator.trace (snd r)) = []
     end.
Proof.
  intros Hs Hm HN HU r. unfold r.
  rewrite (main_past_checks storagePath migrationsPath migrationsTable w m None w1 Hs Hm HN).
  rewrite HU. destruct oe as [e|]; [| split; [reflexivity | split; reflexivity]].
  destruct (errors.Is e ErrNoChange); split; try reflexivity; split; reflexivity.
Qed.

(** X14.  When [main] panics it has printed nothing, and the value it
    panics with is one of the two messages about an empty path, the error
    the opening returned, or an error Up returned in which errors.Is does
    not find ErrNoChange. *)
Theorem main_panic_origin
    (storagePath migrationsPath migrationsTable : string) (w : W)
    (p : migrator.Panic) :
  fst (main storagePath migrationsPath migrationsTable (migrator.start w)) = inr p ->
  migrator.printed
    (migrator.trace (snd (main storagePath migrationsPath migrationsTable
                            (migrator.start w)))) = []
  /\ ((storagePath = "" /\ p = migrator.PanicString "storage path is empty")
      \/ (migrationsPath = "" /\ p = migrator.PanicString "migrations path is empty")
      \/ exists e, p = migrator.PanicError e
           /\ ((exists m w1,
                  migrate_New ("file://" ++ migrationsPath)
                    ("sqlite3://" ++ storagePath ++ "?x-migrations-table="
                       ++ migrationsTable) w = ((m, Some e), w1))
               \/ (exists m w1 w2,
                     migrate_New ("file://" ++ migrationsPath)
                       ("sqlite3://" ++ storagePath ++ "?x-migrations-table="
                          ++ migrationsTable) w = ((m, None), w1)
                     /\ Up m w1 = (Some e, w2)
                     /\ errors.Is e ErrNoChange = false))).
Proof.
  destruct (String.eqb_spec storagePath "") as [Hs|Hs].
  { subst storagePath. simpl. intros H. injection H as H. subst p. auto. }
  destruct (String.eqb_spec migrationsPath "") as [Hm|Hm].
  { subst migrationsPath. run_main. rewrite (eqb_empty_false storagePath Hs). simpl.
    intros H. injection H as H. subst p. auto. }
  destruct (migrate_New (sourceURL migrationsPath)
              (databaseURL storagePath migrationsTable) w) as [[m oe] w1] eqn:HN.
  rewrite (main_past_checks storagePath migrationsPath migrationsTable w m oe w1 Hs Hm HN).
  destruct oe as [e|].
  { simpl. intros H. injection H as H. subst p. split; [reflexivity |].
    right. right. exists e. split; [reflexivity |]. left. exists m, w1. reflexivity. }
  destruct (Up m w1) as [[e|] w2] eqn:HU; [| discriminate].
  destruct (errors.Is e ErrNoChange) eqn:HI; [discriminate |].
  simpl. intros H. injection H as H. subst p. split; [reflexivity |].
  right. right. exists e. split; [reflexivity |]. right. exists m, w1, w2. auto.
Qed.

End Migrator.

(** ** Instances on the in-memory collaborators and the stand-in library *)

(** X2 at alice's login when the signer fails. *)
Lemma Login_error_origin_witness :
  errors.Wrap "auth.Login" memory.ErrSigning
  = errors.Wrap "auth.Login" (errors.Sentinel storage.ErrInvalidCredentials)
  \/ exists user app w2 token e w3,
       memory.NewToken_failing user app (auth.tokenTTL memory.service) w2
       = ((token, Some e), w3)
       /\ errors.Wrap "auth.Login" memory.ErrSigning = errors.Wrap "auth.Login" e.
Proof.
  apply (Login_error_origin memory.World memory.Ctx
           memory.CompareHashAndPassword memory.NewToken_failing memory.service None
           "alice@example.com" "s3cret" 10 memory.registered
           (errors.Wrap "auth.Login" memory.ErrSigning)).
  reflexivity.
Defined.

(** X3 at alice's login when the signer fails. *)
Lemma Login_signing_failure_reported_witness :
  fst (auth.Login memory.CompareHashAndPassword memory.NewToken_failing
         None "alice@example.com" "s3cret" 10
         (auth.start memory.service memory.registered))
  = ("", Some (errors.Wrap "auth.Login" memory.ErrSigning))
  /\ errors.Is (errors.Wrap "auth.Login" memory.ErrSigning) memory.ErrSigning = true
  /\ kind_of (errors.Wrap "auth.Login" memory.ErrSigning) = kind_of memory.ErrSigning
  /\ In (slog.LevelError, "failed to create token",
         (auth.log memory.service ++ [slog.ErrText "error" memory.ErrSigning])%list)
       (log_records
          (auth.trace (snd (auth.Login memory.CompareHashAndPassword memory.NewToken_failing
                              None "alice@example.com" "s3cret" 10
                              (auth.start memory.service memory.registered))))).
Proof.
  apply (Login_signing_failure_reported memory.World memory.Ctx
           memory.CompareHashAndPassword memory.NewToken_failing memory.service None
           "alice@example.com" "s3cret" 10
           memory.registered memory.after_user memory.after_app memory.after_app
           memory.alice memory.app10 "" memory.ErrSigning).
  - reflexivity.
  - reflexivity.
  - reflexivity.
  - reflexivity.
Defined.

(** X4 at a login on the locked database, whose failure is not
    UserNotFound, and at a login whose context expires before the app
    lookup, whose failure is not AppNotFound: neither leaves a record above
    Info. *)
Lemma Login_lookup_failure_logging_witness :
  only_info (log_records
               (auth.trace (snd (auth.Login memory.CompareHashAndPassword memory.NewToken
                                   None "alice@example.com" "s3cret" 10
                                   (auth.start memory.service memory.registered_locked)))))
  = negb (errors.Is (errors.Wrap "storage.User" memory.ErrDatabaseLocked)
            (errors.Sentinel storage.ErrUserNotFound))
  /\ only_info (log_records
                  (auth.trace (snd (auth.Login memory.CompareHashAndPassword memory.NewToken
                                      (Some 1010) "alice@example.com" "s3cret" 10
                                      (auth.start memory.service memory.registered)))))
     = negb (errors.Is (errors.Wrap "storage.App" memory.DeadlineExceeded)
               (errors.Sentinel storage.ErrAppNotFound)).
Proof.
  split.
  - apply (proj1 (Login_lookup_failure_logging memory.World memory.Ctx
                    memory.CompareHashAndPassword memory.NewToken memory.service None
                    "alice@example.com" "s3cret" 10 memory.registered_locked)
             memory.zeroUser (errors.Wrap "storage.User" memory.ErrDatabaseLocked)
             (memory.tick 1 memory.registered_locked)).
    reflexivity.
  - apply (proj2 (Login_lookup_failure_logging memory.World memory.Ctx
                    memory.CompareHashAndPassword memory.NewToken memory.service (Some 1010)
                    "alice@example.com" "s3cret" 10 memory.registered)
             memory.alice memory.after_user memory.zeroApp
             (errors.Wrap "storage.App" memory.DeadlineExceeded) memory.after_user).
    + reflexivity.
    + reflexivity.
    + reflexivity.
Defined.

(** X5 at two wrong passwords for alice. *)
Lemma Login_password_only_compared_witness :
  fst (auth.Login memory.CompareHashAndPassword memory.NewToken
         None "alice@example.com" "wrong" 10
         (auth.start memory.service memory.registered))
  = fst (auth.Login memory.CompareHashAndPassword memory.NewToken
           None "alice@example.com" "guess" 10
           (auth.start memory.service memory.registered))
  /\ auth.world (snd (auth.Login memory.CompareHashAndPassword memory.NewToken
                        None "alice@example.com" "wrong" 10
                        (auth.start memory.service memory.registered)))
     = auth.world (snd (auth.Login memory.CompareHashAndPassword memory.NewToken
                          None "alice@example.com" "guess" 10
                          (auth.start memory.service memory.registered)))
  /\ log_records
       (auth.trace (snd (auth.Login memory.CompareHashAndPassword memory.NewToken
                           None "alice@example.com" "wrong" 10
                           (auth.start memory.service memory.registered))))
     = log_records
         (auth.trace (snd (auth.Login memory.CompareHashAndPassword memory.NewToken
                             None "alice@example.com" "guess" 10
                             (auth.start memory.service memory.registered)))).
Proof.
  apply (Login_password_only_compared memory.World memory.Ctx
           memory.CompareHashAndPassword memory.NewToken memory.service None
           "alice@example.com" "wrong" "guess" 10 memory.registered).
  intros user w1 H. vm_compute in H. injection H as Hu _. subst user. reflexivity.
Defined.

(** X8 at alice's registration in the empty world and her login after it. *)
Lemma RegisterNewUser_then_Login_witness :
  fst (auth.RegisterNewUser memory.GenerateFromPassword
         None "alice@example.com" "s3cret"
         (auth.start memory.service memory.empty)) = (1, None)
  /\ fst (auth.Login memory.CompareHashAndPassword memory.NewToken
            None "alice@example.com" "s3cret" 10
            (snd (auth.RegisterNewUser memory.GenerateFromPassword
                    None "alice@example.com" "s3cret"
                    (auth.start memory.service memory.empty))))
     = ("1.alice@example.com.10.3600000001017.test-secret", None).
Proof.
  apply (RegisterNewUser_then_Login memory.World memory.Ctx
           memory.CompareHashAndPassword memory.GenerateFromPassword memory.NewToken
           memory.service None None "alice@example.com" "s3cret" 10
           memory.empty (memory.tick 2 memory.empty) memory.registered
           memory.after_user memory.after_app memory.after_app
           (memory.hash_of (list_byte_of_string "s3cret")) 1
           memory.alice memory.app10
           "1.alice@example.com.10.3600000001017.test-secret").
  - reflexivity.
  - reflexivity.
  - reflexivity.
  - reflexivity.
  - reflexivity.
  - reflexivity.
  - reflexivity.
Defined.

(** X10 with the storage path given and the migrations path empty. *)
Lemma main_rejects_empty_paths_witness :
  migrator.disk.main "storage/sso.db" "" "migrations"
    (migrator.start migrator.disk.fresh)
  = (inr (migrator.PanicString "migrations path is empty"),
     migrator.start migrator.disk.fresh).
Proof.
  apply (main_rejects_empty_paths migrator.disk.World unit
           migrator.disk.New migrator.disk.Up migrator.disk.ErrNoChange
           "storage/sso.db" "" "migrations" (migrator.start migrator.disk.fresh)).
  right. reflexivity.
Defined.

(** X11 with an empty table name. *)
Lemma main_library_calls_witness :
  migrator.library_calls
    (migrator.trace (snd (migrator.disk.main "storage/sso.db" "./migrations" ""
                            (migrator.start migrator.disk.fresh))))
  = [migrator.CallNew "file://./migrations"
       "sqlite3://storage/sso.db?x-migrations-table=";
     migrator.CallUp tt].
Proof.
  apply (main_library_calls migrator.disk.World unit
           migrator.disk.New migrator.disk.Up migrator.disk.ErrNoChange
           "storage/sso.db" "./migrations" "" migrator.disk.fresh).
  - discriminate.
  - discriminate.
Defined.

(** X13 at a second run, when nothing is left to apply. *)
Lemma main_outcome_of_Up_witness :
  let applied := migrator.world
                   (snd (migrator.disk.main "storage/sso.db" "./migrations" "migrations"
                           (migrator.start migrator.disk.fresh))) in
  let r := migrator.disk.main "storage/sso.db" "./migrations" "migrations"
             (migrator.start applied) in
  migrator.world (snd r) = applied
  /\ fst r = inl tt
  /\ migrator.printed (migrator.trace (snd r)) = ["no migrations to apply"].
Proof.
  apply (main_outcome_of_Up migrator.disk.World unit
           migrator.disk.New migrator.disk.Up migrator.disk.ErrNoChange
           "storage/sso.db" "./migrations" "migrations"
           (migrator.world
              (snd (migrator.disk.main "storage/sso.db" "./migrations" "migrations"
                      (migrator.start migrator.disk.fresh))))
           (migrator.world
              (snd (migrator.disk.main "storage/sso.db" "./migrations" "migrations"
                      (migrator.start migrator.disk.fresh))))
           (migrator.world
              (snd (migrator.disk.main "storage/sso.db" "./migrations" "migrations"
                      (migrator.start migrator.disk.fresh))))
           tt (Some migrator.disk.ErrNoChange)).
  - discriminate.
  - discriminate.
  - reflexivity.
  - reflexivity.
Defined.

(** X14 with the migration files missing. *)
Lemma main_panic_origin_witness :
  migrator.printed
    (migrator.trace (snd (migrator.disk.main "storage/sso.db" "./migrations" "migrations"
                            (migrator.start migrator.disk.missing)))) = []
  /\ (("storage/sso.db" = "" /\ migrator.PanicError migrator.disk.ErrNoSource
                                = migrator.PanicString "storage path is empty")
      \/ ("./migrations" = "" /\ migrator.PanicError migrator.disk.ErrNoSource
                                 = migrator.PanicString "migrations path is empty")
      \/ exists e, migrator.PanicError migrator.disk.ErrNoSource = migrator.PanicError e
           /\ ((exists m w1,
                  migrator.disk.New ("file://" ++ "./migrations")
                    ("sqlite3://" ++ "storage/sso.db" ++ "?x-migrations-table="
                       ++ "migrations") migrator.disk.missing = ((m, Some e), w1))
               \/ (exists m w1 w2,
                     migrator.disk.New ("file://" ++ "./migrations")
                       ("sqlite3://" ++ "storage/sso.db" ++ "?x-migrations-table="
                          ++ "migrations") migrator.disk.missing = ((m, None), w1)
                     /\ migrator.disk.Up m w1 = (Some e, w2)
                     /\ errors.Is e migrator.disk.ErrNoChange = false))).
Proof.
  apply (main_panic_origin migrator.disk.World unit
           migrator.disk.New migrator.disk.Up migrator.disk.ErrNoChange
           "storage/sso.db" "./migrations" "migrations" migrator.disk.missing
           (migrator.PanicError migrator.disk.ErrNoSource)).
  reflexivity.
Defined.

(** * What the operations write to the log *)

Section Records.

Variable W : Type.
Variable Ctx : Type.
Variable compare : list byte -> list byte -> option errors.error.
Variable generate : list byte -> Z -> auth.Ext W (list byte).
Variable newToken : models.User -> models.App -> Z -> auth.Ext W string.

Local Abbreviation Login := (auth.Login compare newToken).
Local Abbreviation RegisterNewUser := (auth.RegisterNewUser generate).


(** X16.  An error RegisterNewUser returns comes with the user ID 0 and is
    the error of the hashing or the error of the saver, wrapped under the
    name of the operation: no failure is replaced by another error, and the
    kind of the error is the kind of its cause. *)
Theorem RegisterNewUser_error_origin
    (a : auth.Auth W Ctx) (ctx : Ctx) (email password : string) (w : W)
    (err : errors.error) :
  snd (fst (RegisterNewUser ctx email password (auth.start a w))) = Some err ->
  fst (fst (RegisterNewUser ctx email password (auth.start a w))) = 0
  /\ exists e,
       err = errors.Wrap "auth.RegisterNewUser" e
       /\ kind_of err = kind_of e
       /\ ((exists h w1,
              generate (list_byte_of_string password) bcrypt.DefaultCost w
              = ((h, Some e), w1))
           \/ (exists h w1 id w2,
                 generate (list_byte_of_string password) bcrypt.DefaultCost w
                 = ((h, None), w1)
                 /\ auth.UserSaver.SaveUser (auth.userSaver a) ctx email h w1
                    = ((id, Some e), w2))).
Proof.
  destruct (generate (list_byte_of_string password) bcrypt.DefaultCost w)
    as [[h [e|]] w1] eqn:HG.
  { destruct (RegisterNewUser_hash_fails W Ctx generate a ctx email password
                w h e w1 HG) as [Hres _].
    rewrite Hres. simpl. intros H. injection H as H. subst err.
    split; [reflexivity |]. exists e. repeat split. left. exists h, w1. reflexivity. }
  destruct (auth.UserSaver.SaveUser (auth.userSaver a) ctx email h w1)
    as [[id oe] w2] eqn:HS.
  destruct (RegisterNewUser_saves W Ctx generate a ctx email password
              w h w1 id oe w2 HG HS) as [Hres _].
  rewrite Hres. destruct oe as [e|]; simpl; [| discriminate].
  intros H. injection H as H. subst err.
  split; [reflexivity |]. exists e. repeat split. right. exists h, w1, id, w2. auto.
Qed.

(** X17.  Every record RegisterNewUser writes carries the logger's own
    attributes, then the name of the operation and the email; every record
    IsAdmin writes carries the logger's own attributes, then the name of
    the operation and the user ID. *)
Theorem records_name_operation
    (a : auth.Auth W Ctx) (ctx : Ctx) (email password : string) (userID : Z) (w : W) :
  Forall (fun r => exists rest,
            snd r = (auth.log a
                     ++ [slog.String "op" "auth.RegisterNewUser";
                         slog.String "email" email] ++ rest)%list)
    (log_records (auth.trace (snd (RegisterNewUser ctx email password (auth.start a w)))))
  /\ Forall (fun r => exists rest,
               snd r = (auth.log a
                        ++ [slog.String "op" "auth.IsAdmin";
                            slog.Int64 "user_id" userID] ++ rest)%list)
       (log_records (auth.trace (snd (auth.IsAdmin ctx userID (auth.start a w))))).
Proof.
  split; outcomes; unfold slog.With;
    repeat (constructor; [eexists; simpl; rewrite <- app_assoc; reflexivity |]);
    constructor.
Qed.

(** X18.  The Info records of Login carry the logger's own attributes, then
    the name of the operation and the username; its records above Info
    carry the logger's own attributes and the text of an error, and neither
    the name of the operation nor the username. *)
Theorem Login_records
    (a : auth.Auth W Ctx) (ctx : Ctx) (email password : string) (appID : Z) (w : W) :
  Forall (fun r =>
            match fst (fst r) with
            | slog.LevelInfo =>
                snd r = (auth.log a
                         ++ [slog.String "op" "auth.Login";
                             slog.String "username" email])%list
            | _ => exists e, snd r = (auth.log a ++ [slog.ErrText "error" e])%list
            end)
    (log_records (auth.trace (snd (Login ctx email password appID (auth.start a w))))).
Proof.
  outcomes; unfold slog.With;
    repeat (constructor;
            [simpl; first [ rewrite app_nil_r; reflexivity | eexists; reflexivity ] |]);
    constructor.
Qed.

End Records.

(** X16 at a second registration of alice. *)
Lemma RegisterNewUser_error_origin_witness :
  let e0 := errors.Wrap "storage.SaveUser" (errors.Sentinel storage.ErrUserAlreadyExists) in
  fst (fst (auth.RegisterNewUser memory.GenerateFromPassword
              None "alice@example.com" "s3cret"
              (auth.start memory.service memory.registered))) = 0
  /\ exists e,
       errors.Wrap "auth.RegisterNewUser" e0 = errors.Wrap "auth.RegisterNewUser" e
       /\ kind_of (errors.Wrap "auth.RegisterNewUser" e0) = kind_of e
       /\ ((exists h w1,
              memory.GenerateFromPassword (list_byte_of_string "s3cret")
                bcrypt.DefaultCost memory.registered = ((h, Some e), w1))
           \/ (exists h w1 id w2,
                 memory.GenerateFromPassword (list_byte_of_string "s3cret")
                   bcrypt.DefaultCost memory.registered = ((h, None), w1)
                 /\ auth.UserSaver.SaveUser (auth.userSaver memory.service)
                      None "alice@example.com" h w1 = ((id, Some e), w2))).
Proof.
  apply (RegisterNewUser_error_origin memory.World memory.Ctx
           memory.GenerateFromPassword memory.service None
           "alice@example.com" "s3cret" memory.registered
           (errors.Wrap "auth.RegisterNewUser"
              (errors.Wrap "storage.SaveUser"
                 (errors.Sentinel storage.ErrUserAlreadyExists)))).
  reflexivity.
Defined.
